(** * The HBNB console (console.py): a shallow embedding and its properties

    The console is a [cmd.Cmd] sub-class whose handlers [do_create],
    [do_show], [do_destroy] and [do_all] act on a storage engine holding a
    dictionary from keys ["<ClassName>.<id>"] to model instances.

    Layout of the development:
    - [PyStr]: the Python string methods the console calls ([str.split],
      [str.strip]);
    - [PyDict]: a Python [dict] with string keys, kept in insertion order;
    - the storage engine and the base model, which console.py imports from
      the [models] package;
    - the handlers, [validate_classname], [cmd.Cmd.onecmd] and the command
      loop;
    - the properties. *)

From Stdlib Require Import String Ascii List Bool Arith ZArith Lia.
Import ListNotations.
Open Scope string_scope.
Open Scope list_scope.

(** ** Python strings

    A Python [str] is modelled by [string]; a character is a code point
    below 256. *)
Module PyStr.

(** [str.isspace] on one character, for the code points below 256:
    TAB, LF, VT, FF, CR, the separators FS, GS, RS, US, the blank, NEL and
    the no-break space. *)
Definition isspace (c : ascii) : bool :=
  let n := nat_of_ascii c in
  (Nat.leb 9 n && Nat.leb n 13) || (Nat.leb 28 n && Nat.leb n 32)
  || Nat.eqb n 133 || Nat.eqb n 160.

(** A word is put in front of the words found so far, unless it is empty. *)
Definition push_word (w : string) (ws : list string) : list string :=
  match w with
  | EmptyString => ws
  | String _ _ => w :: ws
  end.

(** One pass over the text: the word that is still open at the left end, and
    the words that were closed to its right. *)
Fixpoint split_scan (s : string) : string * list string :=
  match s with
  | EmptyString => (EmptyString, [])
  | String c r =>
      let (w, ws) := split_scan r in
      if isspace c then (EmptyString, push_word w ws) else (String c w, ws)
  end.

(** [s.split()]: the maximal runs of characters that are not white space. *)
Definition split (s : string) : list string :=
  let (w, ws) := split_scan s in push_word w ws.

Fixpoint lstrip (s : string) : string :=
  match s with
  | EmptyString => EmptyString
  | String c r => if isspace c then lstrip r else s
  end.

Fixpoint rstrip (s : string) : string :=
  match s with
  | EmptyString => EmptyString
  | String c r =>
      match rstrip r with
      | EmptyString => if isspace c then EmptyString else String c EmptyString
      | String _ _ as r' => String c r'
      end
  end.

(** [s.strip()] *)
Definition strip (s : string) : string := rstrip (lstrip s).

(** No character of [s] is white space. *)
Fixpoint nospace (s : string) : bool :=
  match s with
  | EmptyString => true
  | String c r => negb (isspace c) && nospace r
  end.

(** A word: what one element of [s.split()] looks like. *)
Definition is_word (s : string) : bool :=
  match s with
  | EmptyString => false
  | String _ _ => nospace s
  end.

(** [s.isspace() or s == ''] *)
Fixpoint blank (s : string) : bool :=
  match s with
  | EmptyString => true
  | String c r => isspace c && blank r
  end.

End PyStr.

(** ** Python dictionaries with string keys

    A [dict] keeps its entries in insertion order, which is the order
    [items()] yields them in; an entry list is a dictionary when no key
    occurs twice ([wf]). *)
Module PyDict.
Section Dict.
Context {V : Type}.

Definition t := list (string * V).

(** [d.get(k, None)] *)
Fixpoint get (k : string) (d : t) : option V :=
  match d with
  | [] => None
  | (k', v) :: r => if String.eqb k k' then Some v else get k r
  end.

(** [d[k] = v]: an existing key keeps its place, a new one goes last. *)
Fixpoint set (k : string) (v : V) (d : t) : t :=
  match d with
  | [] => [(k, v)]
  | (k', v') :: r =>
      if String.eqb k k' then (k', v) :: r else (k', v') :: set k v r
  end.

(** [del d[k]], for a key that is present: its entry goes. *)
Fixpoint del (k : string) (d : t) : t :=
  match d with
  | [] => []
  | (k', v) :: r => if String.eqb k k' then r else (k', v) :: del k r
  end.

Definition keys (d : t) : list string := map fst d.
Definition values (d : t) : list V := map snd d.

(** The dictionary invariant: keys are unique. *)
Definition wf (d : t) : Prop := NoDup (keys d).

(** Each key is bound to at most one value. *)
Definition functional (d : t) : Prop :=
  forall k v1 v2, In (k, v1) d -> In (k, v2) d -> v1 = v2.

End Dict.
Arguments t : clear implicits.
End PyDict.

(** ** The model layer and the storage engine

    console.py imports [storage] from [models] and [BaseModel] from
    [models.base_model]. *)

(** An instance: the name of its class ([type(v).__name__]), its identifier
    and its two time stamps. *)
Record Obj : Type := mkObj {
  cls : string;
  id : string;
  created_at : Z;
  updated_at : Z
}.

(** The storage engine: the dictionary it holds in memory, the content of
    its file ([None] while no file has been written) and the number of
    times the file has been written. *)
Record FileStorage : Type := mkStorage {
  objects : PyDict.t Obj;
  file : option (PyDict.t Obj);
  writes : nat
}.

(** What one call of a class constructor followed by [save] draws from
    outside the program: the fresh identifier and the clock, read twice. *)
Record Env : Type := mkEnv {
  uuid4 : string;
  now_init : Z;
  now_save : Z
}.

(** The key an instance is stored under: ["{}.{}".format(cls, id)]. *)
Definition key_of (c i : string) : string := c ++ "." ++ i.

(** Modelled from the spec: [storage.all()] of the missing storage engine,
    which yields the full key-to-object map. It is the engine's own
    dictionary, not a copy: [del] on it in [do_destroy] changes the
    engine. *)
Definition storage_all (st : FileStorage) : PyDict.t Obj := objects st.

(** Modelled from the spec: [storage.new(obj)] of the missing storage engine,
    which registers an object under the composite key of its class name and
    identifier. *)
Definition storage_new (o : Obj) (st : FileStorage) : FileStorage :=
  mkStorage (PyDict.set (key_of (cls o) (id o)) o (objects st))
            (file st) (writes st).

(** Modelled from the spec: [storage.save()] of the missing storage engine,
    which serializes the map to the file, rewriting it wholesale. *)
Definition storage_save (st : FileStorage) : FileStorage :=
  mkStorage (objects st) (Some (objects st)) (S (writes st)).

(** Modelled from the spec: the constructor of the missing model class named
    [c]: an entity with a fresh identifier, a creation and an update time
    stamp, registered with the storage engine. *)
Definition model_init (c : string) (e : Env) (st : FileStorage)
  : Obj * FileStorage :=
  let o := mkObj c (uuid4 e) (now_init e) (now_init e) in
  (o, storage_new o st).

(** Modelled from the spec: [obj.save()] of the missing model class: the
    update time stamp moves and the map is persisted. The instance is the
    very object the storage map holds under its key, so the stored entry
    shows the new time stamp. *)
Definition model_save (o : Obj) (e : Env) (st : FileStorage)
  : Obj * FileStorage :=
  let o' := mkObj (cls o) (id o) (created_at o) (now_save e) in
  let st' := mkStorage (PyDict.set (key_of (cls o) (id o)) o' (objects st))
                       (file st) (writes st) in
  (o', storage_save st').

(** The instance of class [c] as the storage map holds it once it has been
    constructed and saved in environment [e]. *)
Definition created (c : string) (e : Env) : Obj :=
  mkObj c (uuid4 e) (now_init e) (now_save e).

(** ** The console *)

(** [current_classes.keys()] *)
Definition current_classes : list string := ["BaseModel"].

Definition known_class (c : string) : bool :=
  existsb (String.eqb c) current_classes.

(** What [print] is given: a string, or a list of strings (printed in
    Python's list notation); [Help] stands for the text [cmd.Cmd.do_help]
    writes for a topic. *)
Inductive Printed : Type :=
| PStr (s : string)
| PList (l : list string)
| Help (topic : string).

(** [args[n]] for a list of strings, read only below [len(args)]. *)
Definition item (args : list string) (n : nat) : string :=
  nth n args EmptyString.

(** [validate_classname(args, check_id)]: the value returned and what was
    printed. *)
Definition validate_classname (args : list string) (check_id : bool)
  : bool * list Printed :=
  if Nat.ltb (List.length args) 1 then
    (false, [PStr "** class name missing ** "])
  else if negb (known_class (item args 0)) then
    (false, [PStr "** class doesn't exist ** "])
  else if Nat.ltb (List.length args) 2 && check_id then
    (false, [PStr "** instance id missing **"])
  else (true, []).

(** The result of a handler: the storage engine after it, what it printed,
    and whether the value it returned is true (which ends the loop). *)
Record Run : Type := mkRun {
  after : FileStorage;
  printed : list Printed;
  stop : bool
}.

Section Console.

(** [str(v)] of an instance, defined by the missing model class. *)
Variable obj_str : Obj -> string.

Definition do_EOF (line : string) (st : FileStorage) : Run :=
  mkRun st [] true.

Definition do_quit (arg : string) (st : FileStorage) : Run :=
  mkRun st [] true.

Definition do_help (arg : string) (st : FileStorage) : Run :=
  mkRun st [Help arg] false.

Definition do_create (arg : string) (e : Env) (st : FileStorage) : Run :=
  let args := PyStr.split arg in
  let (ok, msg) := validate_classname args false in
  if negb ok then mkRun st msg false
  else
    let (new_obj, st1) := model_init (item args 0) e st in
    let (new_obj', st2) := model_save new_obj e st1 in
    mkRun st2 (msg ++ [PStr (id new_obj')]) false.

Definition do_show (arg : string) (st : FileStorage) : Run :=
  let args := PyStr.split arg in
  let (ok, msg) := validate_classname args true in
  if negb ok then mkRun st msg false
  else
    let instance_objs := storage_all st in
    let key := key_of (item args 0) (item args 1) in
    match PyDict.get key instance_objs with
    | None => mkRun st (msg ++ [PStr "** no instance found **"]) false
    | Some req_instance =>
        mkRun st (msg ++ [PStr (obj_str req_instance)]) false
    end.

Definition do_destroy (arg : string) (st : FileStorage) : Run :=
  let args := PyStr.split arg in
  let (ok, msg) := validate_classname args true in
  if negb ok then mkRun st msg false
  else
    let instance_objs := storage_all st in
    let key := key_of (item args 0) (item args 1) in
    match PyDict.get key instance_objs with
    | None => mkRun st (msg ++ [PStr "** no instance found **"]) false
    | Some _ =>
        let st1 := mkStorage (PyDict.del key instance_objs)
                             (file st) (writes st) in
        mkRun (storage_save st1) msg false
    end.

Definition do_all (arg : string) (st : FileStorage) : Run :=
  let args := PyStr.split arg in
  let all_objs := storage_all st in
  if Nat.ltb (List.length args) 1 then
    mkRun st [PList (map (fun kv => obj_str (snd kv)) all_objs)] false
  else if negb (known_class (item args 0)) then
    mkRun st [PStr "** class doesn't exist ** "] false
  else
    mkRun st
      [PList (map (fun kv => obj_str (snd kv))
                (filter (fun kv => String.eqb (cls (snd kv)) (item args 0))
                   all_objs))]
      false.

End Console.

(** ** The command loop of [cmd.Cmd] *)

(** [c in self.identchars]: the ASCII letters, the digits and the underscore. *)
Definition identchar (c : ascii) : bool :=
  let n := nat_of_ascii c in
  (Nat.leb 65 n && Nat.leb n 90) || (Nat.leb 97 n && Nat.leb n 122)
  || (Nat.leb 48 n && Nat.leb n 57) || Nat.eqb n 95.

(** The longest prefix of identifier characters, and what follows it:
    [line[:i]] and [line[i:]] after the [while] loop of [parseline]. *)
Fixpoint span_ident (s : string) : string * string :=
  match s with
  | EmptyString => (EmptyString, EmptyString)
  | String c r =>
      if identchar c then
        let (w, rest) := span_ident r in (String c w, rest)
      else (EmptyString, s)
  end.

(** [Cmd.parseline(line)]: the command and its argument ([None] stands for
    the pair [None, None]) and the stripped line. The class has no
    [do_shell], so a line that starts with an exclamation mark has no
    command. *)
Definition parseline (line : string) : option (string * string) * string :=
  let line := PyStr.strip line in
  match line with
  | EmptyString => (None, line)
  | String c r =>
      if Ascii.eqb c "!"%char then (None, line)
      else
        let line := if Ascii.eqb c "?"%char then ("help " ++ r)%string else line in
        let (cmd, rest) := span_ident line in
        (Some (cmd, PyStr.strip rest), line)
  end.

(** The interpreter object: the storage engine it drives and its
    [lastcmd] attribute. *)
Record Console : Type := mkConsole {
  storage : FileStorage;
  lastcmd : string
}.

(** One turn of the loop: the interpreter after it, what was printed, and
    whether the loop stops. *)
Record Step : Type := mkStep {
  con : Console;
  out : list Printed;
  halt : bool
}.

Definition lift (r : Run) (last : string) : Step :=
  mkStep (mkConsole (after r) last) (printed r) (stop r).

Section Loop.

Variable obj_str : Obj -> string.

(** [HBNBCommand.emptyline]: the override, whose body is [pass]. *)
Definition emptyline (c : Console) : Step := mkStep c [] false.

(** [Cmd.default(line)] *)
Definition default (line : string) (c : Console) : Step :=
  mkStep c [PStr ("*** Unknown syntax: " ++ line)%string] false.

(** [getattr(self, 'do_' + cmd)(arg)], with [Cmd.default] when the class
    has no such method. *)
Definition dispatch (cmd arg line : string) (e : Env) (c : Console) : Step :=
  let st := storage c in
  let last := lastcmd c in
  if String.eqb cmd "help" then lift (do_help arg st) last
  else if String.eqb cmd "EOF" then lift (do_EOF arg st) last
  else if String.eqb cmd "quit" then lift (do_quit arg st) last
  else if String.eqb cmd "create" then lift (do_create arg e st) last
  else if String.eqb cmd "show" then lift (do_show obj_str arg st) last
  else if String.eqb cmd "destroy" then lift (do_destroy arg st) last
  else if String.eqb cmd "all" then lift (do_all obj_str arg st) last
  else default line c.

(** [Cmd.onecmd(line)] *)
Definition onecmd (e : Env) (line : string) (c : Console) : Step :=
  let (parsed, line) := parseline line in
  match line with
  | EmptyString => emptyline c
  | String _ _ =>
      match parsed with
      | None => default line c
      | Some (cmd, arg) =>
          let c1 :=
            mkConsole (storage c)
              (if String.eqb line "EOF" then EmptyString else line) in
          match cmd with
          | EmptyString => default line c1
          | String _ _ => dispatch cmd arg line e c1
          end
      end
  end.

(** [Cmd.cmdloop()] over the lines that [input] returns, each with what
    the environment supplies should the line create an instance; when the
    input ends, [input] raises [EOFError] and the line is ["EOF"]. The
    result is the interpreter at exit and everything the handlers
    printed. *)
Fixpoint cmdloop (lines : list (Env * string)) (c : Console)
  : Console * list Printed :=
  match lines with
  | [] =>
      let s := onecmd (mkEnv EmptyString 0 0) "EOF" c in (con s, out s)
  | (e, line) :: rest =>
      let s := onecmd e line c in
      if halt s then (con s, out s)
      else let (c', o) := cmdloop rest (con s) in (c', out s ++ o)
  end.

(** The interpreter after [onecmd] has run on each line in turn. *)
Fixpoint run_lines (lines : list (Env * string)) (c : Console) : Console :=
  match lines with
  | [] => c
  | (e, line) :: rest => run_lines rest (con (onecmd e line c))
  end.

End Loop.

(** ** Vocabulary of the statements *)

(** Every character of [s] is an identifier character. *)
Fixpoint allident (s : string) : bool :=
  match s with
  | EmptyString => true
  | String c r => identchar c && allident r
  end.

(** The messages of a failed validation. *)
Definition validation_errors : list string :=
  ["** class name missing ** "; "** class doesn't exist ** ";
   "** instance id missing **"].

(** What makes [validate_classname] fail: no class name, a first argument
    that names no class, or (when an id is asked for) no second argument. *)
Definition invalid_args (args : list string) (check_id : bool) : Prop :=
  match args with
  | [] => True
  | c :: rest => known_class c = false \/ (check_id = true /\ rest = [])
  end.

(** ** Vocabulary of the further properties *)

(** The file holds the map as it is in memory. *)
Definition synced (st : FileStorage) : Prop := file st = Some (objects st).

(** An entry is filed under the key of its own class name and identifier,
    and its class is one the console knows. *)
Definition entry_ok (kv : string * Obj) : Prop :=
  fst kv = key_of (cls (snd kv)) (id (snd kv)) /\
  known_class (cls (snd kv)) = true.

Definition consistent (d : PyDict.t Obj) : Prop := Forall entry_ok d.

(** The commands the class has a [do_] method for. *)
Definition verbs : list string :=
  ["help"; "EOF"; "quit"; "create"; "show"; "destroy"; "all"].

(** [" ".join(ws)] *)
Fixpoint join_words (ws : list string) : string :=
  match ws with
  | [] => EmptyString
  | [w] => w
  | w :: rest => (w ++ " " ++ join_words rest)%string
  end.

(** ** A sample session, for instances of the statements *)

Definition sample_str (o : Obj) : string :=
  ("[" ++ cls o ++ "] (" ++ id o ++ ")")%string.

Definition sample_env : Env := mkEnv "4f3c-11" 10 11.
Definition other_env : Env := mkEnv "9a7e-22" 20 21.

Definition empty_console : Console :=
  mkConsole (mkStorage [] None 0) EmptyString.

(** The interpreter after [create BaseModel] has run twice. *)
Definition sample_console : Console :=
  mkConsole
    (mkStorage
       [("BaseModel.4f3c-11", mkObj "BaseModel" "4f3c-11" 10 11);
        ("BaseModel.9a7e-22", mkObj "BaseModel" "9a7e-22" 20 21)]
       (Some [("BaseModel.4f3c-11", mkObj "BaseModel" "4f3c-11" 10 11);
              ("BaseModel.9a7e-22", mkObj "BaseModel" "9a7e-22" 20 21)])
       2)
    "create BaseModel".

(** * Properties *)

(** ** Splitting and stripping *)
Module PyStrFacts.
Import PyStr.

Lemma split_scan_nospace_end (w : string) :
  nospace w = true -> split_scan w = (w, []).
Proof.
  induction w as [|a w IH]; simpl; intros H; [reflexivity|].
  apply andb_true_iff in H as [Ha Hw].
  rewrite (IH Hw). apply negb_true_iff in Ha. now rewrite Ha.
Qed.

Lemma split_scan_nospace_sep (w : string) (sp : ascii) (s : string) :
  nospace w = true -> isspace sp = true ->
  split_scan (w ++ String sp s) = (w, split s).
Proof.
  intros Hw Hsp. induction w as [|a w IH]; simpl.
  - rewrite Hsp. unfold split. now destruct (split_scan s).
  - simpl in Hw. apply andb_true_iff in Hw as [Ha Hw].
    rewrite (IH Hw). apply negb_true_iff in Ha. now rewrite Ha.
Qed.

(** A word alone splits into itself. *)
Lemma split_word (w : string) : is_word w = true -> split w = [w].
Proof.
  intros H. destruct w as [|a w]; [discriminate|].
  unfold is_word in H. unfold split.
  now rewrite (split_scan_nospace_end _ H).
Qed.

(** A word followed by white space is the first element of the split. *)
Lemma split_word_sep (w : string) (sp : ascii) (s : string) :
  is_word w = true -> isspace sp = true ->
  split (w ++ String sp s) = w :: split s.
Proof.
  intros H Hsp. destruct w as [|a w]; [discriminate|].
  unfold is_word in H. unfold split at 1.
  now rewrite (split_scan_nospace_sep _ _ _ H Hsp).
Qed.

Lemma split_blank (s : string) : blank s = true -> split s = [].
Proof.
  unfold split. induction s as [|a s IH]; simpl; intros H; [reflexivity|].
  apply andb_true_iff in H as [Ha Hs]. specialize (IH Hs).
  destruct (split_scan s) as [w ws]. now rewrite Ha.
Qed.

Lemma lstrip_blank (s : string) : blank s = true -> lstrip s = EmptyString.
Proof.
  induction s as [|a s IH]; simpl; intros H; [reflexivity|].
  apply andb_true_iff in H as [Ha Hs]. rewrite Ha. auto.
Qed.

Lemma strip_blank (s : string) : blank s = true -> strip s = EmptyString.
Proof. intros H. unfold strip. now rewrite (lstrip_blank _ H). Qed.

Lemma rstrip_word (w : string) : is_word w = true -> rstrip w = w.
Proof.
  induction w as [|a w IH]; [discriminate|]. intros H.
  unfold is_word in H. simpl in H. apply andb_true_iff in H as [Ha Hw].
  apply negb_true_iff in Ha. simpl.
  destruct w as [|b w]; simpl in *.
  - now rewrite Ha.
  - assert (E : rstrip (String b w) = String b w) by (apply IH; exact Hw).
    simpl in E. now rewrite E.
Qed.

(** Stripping on the right leaves a text that ends in a word as it is. *)
Lemma rstrip_app_word (s w : string) :
  is_word w = true -> rstrip (s ++ w) = (s ++ w)%string.
Proof.
  intros H. induction s as [|a s IH]; simpl.
  - now apply rstrip_word.
  - rewrite IH. destruct (s ++ w)%string eqn:E; [|reflexivity].
    destruct s; simpl in E; [subst w|]; discriminate.
Qed.

End PyStrFacts.

(** ** Dictionaries *)
Module PyDictFacts.
Import PyDict.
Section Facts.
Context {V : Type}.
Implicit Types (d : t V) (k : string) (v : V).

Lemma get_In k v d : get k d = Some v -> In (k, v) d.
Proof.
  induction d as [|[k' v'] d IH]; simpl; [discriminate|].
  destruct (String.eqb_spec k k') as [->|_]; intros H.
  - injection H as ->. now left.
  - right. auto.
Qed.

Lemma get_None_keys k d : get k d = None <-> ~ In k (keys d).
Proof.
  induction d as [|[k' v'] d IH]; simpl; [tauto|].
  destruct (String.eqb_spec k k') as [->|Hne].
  - split; [discriminate|]. intros H. exfalso. apply H. now left.
  - rewrite IH. split; intros H; [intros [E|E]|]; try tauto.
    now apply Hne.
Qed.

Lemma get_set_same k v d : get k (set k v d) = Some v.
Proof.
  induction d as [|[k' v'] d IH]; simpl.
  - now rewrite String.eqb_refl.
  - destruct (String.eqb_spec k k') as [->|Hne]; simpl.
    + now rewrite String.eqb_refl.
    + destruct (String.eqb_spec k k'); [contradiction|exact IH].
Qed.

Lemma get_set_other k k' v d :
  k <> k' -> get k' (set k v d) = get k' d.
Proof.
  intros Hne. induction d as [|[k1 v1] d IH]; simpl.
  - destruct (String.eqb_spec k' k); [congruence|reflexivity].
  - destruct (String.eqb_spec k k1) as [->|H1]; simpl.
    + destruct (String.eqb_spec k' k1); [congruence|reflexivity].
    + now rewrite IH.
Qed.

(** Assignment overwrites in place: a key that is there twice after it
    was there twice before, or is the one new key. *)
Lemma keys_set k v d :
  keys (set k v d) = if existsb (String.eqb k) (keys d)
                     then keys d else keys d ++ [k].
Proof.
  unfold keys. induction d as [|[k' v'] d IH]; simpl; [reflexivity|].
  destruct (String.eqb_spec k k') as [->|Hne]; simpl; [reflexivity|].
  rewrite IH. now destruct (existsb (String.eqb k) (map fst d)).
Qed.

Lemma wf_set k v d : wf d -> wf (set k v d).
Proof.
  unfold wf. intros H. rewrite keys_set.
  destruct (existsb (String.eqb k) (keys d)) eqn:E; [exact H|].
  apply NoDup_app; [exact H|repeat constructor; intros []|].
  intros x Hx [E'|[]]. subst x.
  assert (existsb (String.eqb k) (keys d) = true); [|congruence].
  apply existsb_exists. exists k. split; [exact Hx|apply String.eqb_refl].
Qed.

Lemma keys_del_incl k d x : In x (keys (del k d)) -> In x (keys d).
Proof.
  induction d as [|[k' v'] d IH]; simpl; [tauto|].
  destruct (String.eqb k k'); simpl; tauto.
Qed.

Lemma wf_del k d : wf d -> wf (del k d).
Proof.
  unfold wf. induction d as [|[k' v'] d IH]; simpl; intros H;
    [constructor|].
  inversion H as [|? ? Hnin Hnd]; subst.
  destruct (String.eqb k k'); simpl; [exact Hnd|].
  constructor; [|auto]. intros Hx. apply Hnin.
  now apply keys_del_incl in Hx.
Qed.

(** In a dictionary, [del] leaves no entry for the key. *)
Lemma get_del_same k d : wf d -> get k (del k d) = None.
Proof.
  unfold wf. induction d as [|[k' v'] d IH]; simpl; intros H;
    [reflexivity|].
  inversion H as [|? ? Hnin Hnd]; subst.
  destruct (String.eqb_spec k k') as [->|Hne]; simpl.
  - now apply get_None_keys.
  - destruct (String.eqb_spec k k'); [contradiction|auto].
Qed.

Lemma get_del_other k k' d : k <> k' -> get k' (del k d) = get k' d.
Proof.
  intros Hne. induction d as [|[k1 v1] d IH]; simpl; [reflexivity|].
  destruct (String.eqb_spec k k1) as [->|H1]; simpl.
  - destruct (String.eqb_spec k' k1); [congruence|reflexivity].
  - now rewrite IH.
Qed.

Lemma wf_functional d : wf d -> functional d.
Proof.
  unfold wf, functional. induction d as [|[k' v'] d IH]; simpl;
    intros H k v1 v2 H1 H2; [contradiction|].
  inversion H as [|? ? Hnin Hnd]; subst.
  assert (Hk : forall v, In (k', v) d -> False).
  { intros v Hv. apply Hnin. change k' with (fst (k', v)).
    now apply in_map. }
  destruct H1 as [E1|H1], H2 as [E2|H2].
  - congruence.
  - injection E1 as <- <-. now apply Hk in H2.
  - injection E2 as <- <-. now apply Hk in H1.
  - eauto.
Qed.

End Facts.
End PyDictFacts.

(** ** Argument validation and the handlers *)

Lemma known_class_inv (c : string) : known_class c = true -> c = "BaseModel".
Proof.
  unfold known_class. simpl. rewrite orb_false_r. apply String.eqb_eq.
Qed.

(** [validate_classname] by cases on the argument list. *)
Lemma validate_classname_cases (args : list string) (check_id : bool) :
  validate_classname args check_id =
  match args with
  | [] => (false, [PStr "** class name missing ** "])
  | c :: rest =>
      if known_class c then
        match rest with
        | [] => if check_id then (false, [PStr "** instance id missing **"])
                else (true, [])
        | _ :: _ => (true, [])
        end
      else (false, [PStr "** class doesn't exist ** "])
  end.
Proof.
  destruct args as [|c [|i rest]]; unfold validate_classname, item; simpl;
    try reflexivity; destruct (known_class c); simpl; try reflexivity.
Qed.

Lemma set_set {V : Type} (k : string) (v v' : V) (d : PyDict.t V) :
  PyDict.set k v' (PyDict.set k v d) = PyDict.set k v' d.
Proof.
  induction d as [|[k1 v1] d IH]; simpl.
  - now rewrite String.eqb_refl.
  - destruct (String.eqb_spec k k1) as [->|Hne]; simpl.
    + now rewrite String.eqb_refl.
    + destruct (String.eqb_spec k k1); [contradiction|now rewrite IH].
Qed.

Section HandlerFacts.

Variable obj_str : Obj -> string.

Lemma do_create_ok arg c rest e st :
  PyStr.split arg = c :: rest -> known_class c = true ->
  do_create arg e st =
  mkRun (storage_save
           (mkStorage (PyDict.set (key_of c (uuid4 e)) (created c e)
                         (objects st))
                      (file st) (writes st)))
        [PStr (uuid4 e)] false.
Proof using.
  intros Hs Hc. unfold do_create. rewrite Hs, validate_classname_cases, Hc.
  destruct rest; simpl; unfold item; simpl; now rewrite set_set.
Qed.

Lemma do_show_ok arg c i rest st :
  PyStr.split arg = c :: i :: rest -> known_class c = true ->
  do_show obj_str arg st =
  mkRun st
    [PStr match PyDict.get (key_of c i) (objects st) with
          | Some o => obj_str o
          | None => "** no instance found **"
          end] false.
Proof.
  intros Hs Hc. unfold do_show. rewrite Hs, validate_classname_cases, Hc.
  simpl. unfold item, storage_all. simpl.
  now destruct (PyDict.get (key_of c i) (objects st)).
Qed.

Lemma do_destroy_ok arg c i rest st :
  PyStr.split arg = c :: i :: rest -> known_class c = true ->
  do_destroy arg st =
  match PyDict.get (key_of c i) (objects st) with
  | Some _ =>
      mkRun (storage_save
               (mkStorage (PyDict.del (key_of c i) (objects st))
                          (file st) (writes st)))
            [] false
  | None => mkRun st [PStr "** no instance found **"] false
  end.
Proof using.
  intros Hs Hc. unfold do_destroy. rewrite Hs, validate_classname_cases, Hc.
  simpl. unfold item, storage_all. simpl.
  now destruct (PyDict.get (key_of c i) (objects st)).
Qed.

(** A handler that validates its arguments stops at a failed validation:
    the engine is as before, the message of [validate_classname] is all
    that is printed, and the value returned is not true. *)
Lemma do_create_invalid arg e st :
  fst (validate_classname (PyStr.split arg) false) = false ->
  do_create arg e st =
  mkRun st (snd (validate_classname (PyStr.split arg) false)) false.
Proof using.
  unfold do_create. destruct (validate_classname _ _) as [ok msg]. simpl.
  now intros ->.
Qed.

Lemma do_show_invalid arg st :
  fst (validate_classname (PyStr.split arg) true) = false ->
  do_show obj_str arg st =
  mkRun st (snd (validate_classname (PyStr.split arg) true)) false.
Proof.
  unfold do_show. destruct (validate_classname _ _) as [ok msg]. simpl.
  now intros ->.
Qed.

Lemma do_destroy_invalid arg st :
  fst (validate_classname (PyStr.split arg) true) = false ->
  do_destroy arg st =
  mkRun st (snd (validate_classname (PyStr.split arg) true)) false.
Proof using.
  unfold do_destroy. destruct (validate_classname _ _) as [ok msg]. simpl.
  now intros ->.
Qed.

(** The read-only handlers hand the engine back as they got it and never
    return a true value. *)
Lemma do_show_frame arg st :
  after (do_show obj_str arg st) = st /\ stop (do_show obj_str arg st) = false.
Proof.
  unfold do_show. destruct (validate_classname _ _) as [[] msg]; simpl;
    [|tauto].
  destruct (PyDict.get _ _); simpl; tauto.
Qed.

Lemma do_all_frame arg st :
  after (do_all obj_str arg st) = st /\ stop (do_all obj_str arg st) = false.
Proof.
  unfold do_all. destruct (Nat.ltb _ _); [simpl; tauto|].
  destruct (negb _); simpl; tauto.
Qed.

(** [do_create] and [do_destroy] either leave the engine as it was or end
    by writing the map they leave to the file. *)
Lemma do_create_saves arg e st :
  let st' := after (do_create arg e st) in
  st' = st \/
  (file st' = Some (objects st') /\ writes st' = S (writes st)).
Proof using.
  unfold do_create. destruct (validate_classname _ _) as [[] msg]; simpl;
    [right; split|left]; reflexivity.
Qed.

Lemma do_destroy_saves arg st :
  let st' := after (do_destroy arg st) in
  st' = st \/
  (file st' = Some (objects st') /\ writes st' = S (writes st)).
Proof using.
  unfold do_destroy. destruct (validate_classname _ _) as [[] msg]; simpl;
    [|left; reflexivity].
  destruct (PyDict.get _ _); simpl; [right; split|left]; reflexivity.
Qed.

(** Every handler keeps the keys of the map unique. *)
Lemma do_create_wf arg e st :
  PyDict.wf (objects st) -> PyDict.wf (objects (after (do_create arg e st))).
Proof using.
  intros H. unfold do_create.
  destruct (validate_classname _ _) as [[] msg]; simpl; [|exact H].
  now do 2 apply PyDictFacts.wf_set.
Qed.

Lemma do_destroy_wf arg st :
  PyDict.wf (objects st) -> PyDict.wf (objects (after (do_destroy arg st))).
Proof using.
  intros H. unfold do_destroy.
  destruct (validate_classname _ _) as [[] msg]; simpl; [|exact H].
  destruct (PyDict.get _ _); simpl; [|exact H].
  now apply PyDictFacts.wf_del.
Qed.

End HandlerFacts.

(** ** Parsing a line and dispatching it *)

Lemma identchar_plain (c : ascii) :
  identchar c = true ->
  PyStr.isspace c = false /\ Ascii.eqb c "!" = false /\ Ascii.eqb c "?" = false.
Proof.
  destruct c as [[] [] [] [] [] [] [] []]; vm_compute; intros H;
    try discriminate H; repeat split.
Qed.

Lemma span_ident_sep (verb : string) (sp : ascii) (rest : string) :
  allident verb = true -> identchar sp = false ->
  span_ident (verb ++ String sp rest) = (verb, String sp rest).
Proof.
  intros Hv Hsp. induction verb as [|a verb IH]; simpl.
  - now rewrite Hsp.
  - simpl in Hv. apply andb_true_iff in Hv as [Ha Hv].
    now rewrite Ha, (IH Hv).
Qed.

Lemma strip_app_word (a : ascii) (s w : string) :
  PyStr.isspace a = false -> PyStr.is_word w = true ->
  PyStr.strip (String a s ++ w) = (String a s ++ w)%string.
Proof.
  intros Ha Hw. unfold PyStr.strip. simpl PyStr.lstrip. rewrite Ha.
  change (String a (s ++ w)) with (String a s ++ w)%string.
  now apply PyStrFacts.rstrip_app_word.
Qed.

Lemma append_assoc (s1 s2 s3 : string) :
  ((s1 ++ s2) ++ s3 = s1 ++ (s2 ++ s3))%string.
Proof. induction s1 as [|a s1 IH]; simpl; [reflexivity|now rewrite IH]. Qed.

(** A line made of a verb, a blank, and an argument text that starts with a
    character other than white space and ends in a word is parsed into that
    verb and that argument. *)
Lemma parseline_call (v0 : ascii) (vs : string) (a : ascii) (s w : string) :
  allident (String v0 vs) = true ->
  PyStr.isspace a = false -> PyStr.is_word w = true ->
  parseline (String v0 vs ++ " " ++ (String a s ++ w)) =
  (Some (String v0 vs, String a s ++ w),
   String v0 vs ++ " " ++ (String a s ++ w))%string.
Proof.
  intros Hv Ha Hw.
  assert (Hv0 : identchar v0 = true).
  { simpl in Hv. now apply andb_true_iff in Hv as [? _]. }
  destruct (identchar_plain _ Hv0) as (Hsp & Hbang & Hq).
  assert (F : (String v0 vs ++ " " ++ (String a s ++ w) =
               String v0 (vs ++ " " ++ String a s) ++ w)%string).
  { simpl. f_equal. now rewrite append_assoc. }
  assert (E : PyStr.strip (String v0 vs ++ " " ++ (String a s ++ w)) =
              (String v0 vs ++ " " ++ (String a s ++ w))%string).
  { rewrite F. now apply strip_app_word. }
  unfold parseline. rewrite E. cbn [append]. rewrite Hbang, Hq.
  change (String v0 (vs ++ String " " (String a (s ++ w))))
    with (String v0 vs ++ String " " (String a (s ++ w)))%string.
  rewrite span_ident_sep by (exact Hv || reflexivity).
  unfold PyStr.strip. cbn [PyStr.lstrip].
  change (PyStr.isspace " ") with true. cbv iota. rewrite Ha.
  change (String a (s ++ w)) with (String a s ++ w)%string.
  now rewrite PyStrFacts.rstrip_app_word.
Qed.

Section LoopFacts.

Variable obj_str : Obj -> string.

(** A parsed line goes to [dispatch], with [lastcmd] set. *)
Lemma onecmd_parsed e line c v0 vs arg l0 ls :
  parseline line = (Some (String v0 vs, arg), String l0 ls) ->
  onecmd obj_str e line c =
  dispatch obj_str (String v0 vs) arg (String l0 ls) e
    (mkConsole (storage c)
       (if String.eqb (String l0 ls) "EOF" then EmptyString
        else String l0 ls)).
Proof. intros H. unfold onecmd. now rewrite H. Qed.

(** A blank line reaches [emptyline]. *)
Lemma parseline_blank line :
  PyStr.blank line = true -> parseline line = (None, EmptyString).
Proof using.
  intros H. unfold parseline. now rewrite (PyStrFacts.strip_blank _ H).
Qed.

(** [default] and [emptyline] keep the engine. *)
Lemma dispatch_cases cmd arg line e c :
  let s := dispatch obj_str cmd arg line e c in
  s = lift (do_create arg e (storage c)) (lastcmd c) \/
  s = lift (do_destroy arg (storage c)) (lastcmd c) \/
  storage (con s) = storage c.
Proof.
  unfold dispatch.
  repeat (match goal with
          | |- context [if ?b then _ else _] => destruct b
          end; simpl; auto);
    right; right;
    first [apply (do_show_frame obj_str) | apply (do_all_frame obj_str)].
Qed.

Lemma onecmd_cases e line c :
  let s := onecmd obj_str e line c in
  (exists arg, storage (con s) = after (do_create arg e (storage c))) \/
  (exists arg, storage (con s) = after (do_destroy arg (storage c))) \/
  storage (con s) = storage c.
Proof.
  unfold onecmd. destruct (parseline line) as [parsed l].
  destruct l as [|l0 ls]; simpl; auto.
  destruct parsed as [[cmd arg]|]; simpl; auto.
  destruct cmd as [|v0 vs]; simpl; auto.
  match goal with
  | |- context [dispatch obj_str ?cmd ?arg ?l ?e ?c1] =>
      destruct (dispatch_cases cmd arg l e c1) as [H|[H|H]];
        cbv zeta in H; rewrite H; simpl; eauto
  end.
Qed.

End LoopFacts.

(** ** Command lines in their usual form *)

Lemma split_two (c i : string) :
  PyStr.is_word c = true -> PyStr.is_word i = true ->
  PyStr.split (c ++ " " ++ i) = [c; i].
Proof.
  intros Hc Hi. simpl append.
  rewrite PyStrFacts.split_word_sep by (exact Hc || reflexivity).
  now rewrite (PyStrFacts.split_word _ Hi).
Qed.

Lemma key_of_inj (c i j : string) : key_of c i = key_of c j -> i = j.
Proof.
  unfold key_of. induction c as [|a c IH]; simpl; intros H.
  - now injection H.
  - injection H as H. auto.
Qed.

Section LineFacts.

Variable obj_str : Obj -> string.

Lemma onecmd_create e c con0 :
  known_class c = true ->
  onecmd obj_str e ("create " ++ c) con0 =
  lift (do_create c e (storage con0)) ("create " ++ c).
Proof. intros H. apply known_class_inv in H. subst c. reflexivity. Qed.

Lemma onecmd_show e c i con0 :
  known_class c = true -> PyStr.is_word i = true ->
  onecmd obj_str e ("show " ++ c ++ " " ++ i) con0 =
  lift (do_show obj_str (c ++ " " ++ i) (storage con0))
       ("show " ++ c ++ " " ++ i).
Proof.
  intros H Hi. apply known_class_inv in H. subst c.
  assert (P := parseline_call "s" "how" "B" "aseModel " i
                 eq_refl eq_refl Hi).
  change ("show " ++ "BaseModel" ++ " " ++ i)%string
    with ("show" ++ " " ++ ("BaseModel " ++ i))%string.
  now rewrite (onecmd_parsed obj_str e _ con0 _ _ _ _ _ P).
Qed.

Lemma onecmd_destroy e c i con0 :
  known_class c = true -> PyStr.is_word i = true ->
  onecmd obj_str e ("destroy " ++ c ++ " " ++ i) con0 =
  lift (do_destroy (c ++ " " ++ i) (storage con0))
       ("destroy " ++ c ++ " " ++ i).
Proof.
  intros H Hi. apply known_class_inv in H. subst c.
  assert (P := parseline_call "d" "estroy" "B" "aseModel " i
                 eq_refl eq_refl Hi).
  change ("destroy " ++ "BaseModel" ++ " " ++ i)%string
    with ("destroy" ++ " " ++ ("BaseModel " ++ i))%string.
  now rewrite (onecmd_parsed obj_str e _ con0 _ _ _ _ _ P).
Qed.

(** A key that is absent stays absent while no instance is created under
    it. *)
Lemma onecmd_absent e line con0 c i :
  known_class c = true -> uuid4 e <> i ->
  PyDict.get (key_of c i) (objects (storage con0)) = None ->
  PyDict.get (key_of c i)
    (objects (storage (con (onecmd obj_str e line con0)))) = None.
Proof.
  intros Hc Hne Hk. apply known_class_inv in Hc. subst c.
  destruct (onecmd_cases obj_str e line con0) as [[arg H]|[[arg H]|H]];
    cbv zeta in H; rewrite H; clear H.
  - unfold do_create. rewrite validate_classname_cases.
    destruct (PyStr.split arg) as [|c rest]; simpl; [exact Hk|].
    destruct (known_class c) eqn:Ec; simpl; [|exact Hk].
    apply known_class_inv in Ec. subst c.
    assert (Hkey : key_of "BaseModel" (uuid4 e) <> key_of "BaseModel" i).
    { intros E. now apply key_of_inj in E. }
    destruct rest; simpl; unfold item; simpl;
      now rewrite !PyDictFacts.get_set_other.
  - unfold do_destroy. destruct (validate_classname _ _) as [[] msg];
      simpl; [|exact Hk].
    destruct (PyDict.get _ (storage_all _)) eqn:Eg; simpl; [|exact Hk].
    unfold storage_all in *.
    match goal with
    | |- PyDict.get ?k (PyDict.del ?k' _) = None =>
        destruct (String.eqb_spec k' k) as [E|E]
    end.
    + rewrite E in Eg. congruence.
    + now rewrite PyDictFacts.get_del_other.
  - exact Hk.
Qed.

Lemma run_lines_absent lines con0 c i :
  known_class c = true ->
  Forall (fun el => uuid4 (fst el) <> i) lines ->
  PyDict.get (key_of c i) (objects (storage con0)) = None ->
  PyDict.get (key_of c i)
    (objects (storage (run_lines obj_str lines con0))) = None.
Proof.
  intros Hc Hl. revert con0.
  induction Hl as [|[e line] lines He _ IH]; simpl; intros con0 Hk;
    [exact Hk|].
  apply IH. now apply onecmd_absent.
Qed.

End LineFacts.

(** * The claims *)

Example sample_console_reached :
  run_lines sample_str
    [(sample_env, "create BaseModel"); (other_env, "create BaseModel")]
    empty_console = sample_console.
Proof. reflexivity. Qed.

(** C1. Whatever the storage map holds, running [create <class>] with a
    known class name prints an identifier, stores the new instance under
    the key of that class and identifier, and a [show <class> <id>] with the
    identifier printed prints the string representation of that instance
    and changes nothing. The identifier drawn is a word: not empty, no
    white space. *)
Theorem create_then_show (obj_str : Obj -> string) (c : string)
    (e e' : Env) (con0 : Console) :
  known_class c = true -> PyStr.is_word (uuid4 e) = true ->
  let s1 := onecmd obj_str e ("create " ++ c) con0 in
  exists i,
    out s1 = [PStr i] /\
    PyDict.get (key_of c i) (objects (storage (con s1))) = Some (created c e) /\
    cls (created c e) = c /\ id (created c e) = i /\
    onecmd obj_str e' ("show " ++ c ++ " " ++ i) (con s1) =
    mkStep (mkConsole (storage (con s1)) ("show " ++ c ++ " " ++ i))
           [PStr (obj_str (created c e))] false.
Proof.
  intros Hc Hi s1. exists (uuid4 e). subst s1.
  rewrite (onecmd_create obj_str e c con0 Hc).
  assert (Hw : PyStr.is_word c = true)
    by (apply known_class_inv in Hc; now subst c).
  rewrite (do_create_ok c c [] e (storage con0)
             (PyStrFacts.split_word c Hw) Hc).
  simpl. repeat split.
  - apply PyDictFacts.get_set_same.
  - rewrite (onecmd_show obj_str e' c (uuid4 e) _ Hc Hi).
    rewrite (do_show_ok obj_str _ c (uuid4 e) [] _ (split_two _ _ Hw Hi) Hc).
    simpl. now rewrite PyDictFacts.get_set_same.
Qed.

Lemma create_then_show_witness :
  known_class "BaseModel" = true /\
  PyStr.is_word (uuid4 sample_env) = true /\
  exists i,
    out (onecmd sample_str sample_env "create BaseModel" empty_console)
    = [PStr i] /\
    out (onecmd sample_str other_env ("show BaseModel " ++ i)
           (con (onecmd sample_str sample_env "create BaseModel"
                   empty_console)))
    = [PStr (sample_str (created "BaseModel" sample_env))].
Proof.
  split; [reflexivity|]. split; [reflexivity|].
  destruct (create_then_show sample_str "BaseModel" sample_env other_env
              empty_console eq_refl eq_refl) as (i & Ho & _ & _ & _ & Hs).
  exists i. split; [exact Ho|].
  exact (f_equal out Hs).
Defined.

(** C2. For an instance stored under the key of a known class and an
    identifier that is a word, [destroy <class> <id>] removes the key from
    the storage map, and a [show <class> <id>] after it, also after further
    lines that draw other identifiers, prints the no-instance message. *)
Theorem destroy_then_show (obj_str : Obj -> string) (c i : string) (o : Obj)
    (e e' : Env) (mid : list (Env * string)) (con0 : Console) :
  known_class c = true -> PyStr.is_word i = true ->
  PyDict.wf (objects (storage con0)) ->
  PyDict.get (key_of c i) (objects (storage con0)) = Some o ->
  Forall (fun el => uuid4 (fst el) <> i) mid ->
  let s1 := onecmd obj_str e ("destroy " ++ c ++ " " ++ i) con0 in
  objects (storage (con s1)) = PyDict.del (key_of c i) (objects (storage con0))
  /\ ~ In (key_of c i) (PyDict.keys (objects (storage (con s1))))
  /\ out (onecmd obj_str e' ("show " ++ c ++ " " ++ i)
            (run_lines obj_str mid (con s1)))
     = [PStr "** no instance found **"].
Proof.
  intros Hc Hi Hwf Hget Hmid s1. subst s1.
  assert (Hw : PyStr.is_word c = true)
    by (pose proof (known_class_inv _ Hc); now subst c).
  rewrite (onecmd_destroy obj_str e c i con0 Hc Hi).
  rewrite (do_destroy_ok _ c i [] _ (split_two _ _ Hw Hi) Hc), Hget.
  simpl.
  assert (Hgone : PyDict.get (key_of c i)
                    (PyDict.del (key_of c i) (objects (storage con0))) = None)
    by now apply PyDictFacts.get_del_same.
  split; [reflexivity|]. split; [now apply PyDictFacts.get_None_keys|].
  rewrite (onecmd_show obj_str e' c i _ Hc Hi).
  rewrite (do_show_ok obj_str _ c i [] _ (split_two _ _ Hw Hi) Hc).
  simpl. now rewrite (run_lines_absent obj_str mid _ c i Hc Hmid).
Qed.

Lemma destroy_then_show_witness :
  PyDict.wf (objects (storage sample_console)) /\
  ~ In "BaseModel.4f3c-11"
      (PyDict.keys
         (objects (storage (con (onecmd sample_str sample_env
                                   "destroy BaseModel 4f3c-11"
                                   sample_console))))) /\
  out (onecmd sample_str sample_env "show BaseModel 4f3c-11"
         (run_lines sample_str [(other_env, "all")]
            (con (onecmd sample_str sample_env "destroy BaseModel 4f3c-11"
                    sample_console))))
  = [PStr "** no instance found **"].
Proof.
  assert (Hwf : PyDict.wf (objects (storage sample_console))).
  { unfold PyDict.wf. simpl. repeat constructor; simpl.
    - intros [H|[]]. discriminate H.
    - intros []. }
  split; [exact Hwf|].
  refine (proj2 (destroy_then_show sample_str "BaseModel" "4f3c-11"
            (mkObj "BaseModel" "4f3c-11" 10 11) sample_env sample_env
            [(other_env, "all")] sample_console
            eq_refl eq_refl Hwf eq_refl _)).
  repeat constructor. simpl. discriminate.
Defined.

Lemma map_filter_values (obj_str : Obj -> string) (p : Obj -> bool)
    (d : PyDict.t Obj) :
  map (fun kv => obj_str (snd kv)) (filter (fun kv => p (snd kv)) d) =
  map obj_str (filter p (PyDict.values d)).
Proof.
  induction d as [|[k v] d IH]; simpl; [reflexivity|].
  destruct (p v); simpl; now rewrite IH.
Qed.

Lemma do_all_prints (obj_str : Obj -> string) (arg : string)
    (st : FileStorage) :
  printed (do_all obj_str arg st) =
  match PyStr.split arg with
  | [] => [PList (map obj_str (PyDict.values (objects st)))]
  | c :: _ =>
      if known_class c then
        [PList (map obj_str
                  (filter (fun o => String.eqb (cls o) c)
                     (PyDict.values (objects st))))]
      else [PStr "** class doesn't exist ** "]
  end.
Proof.
  unfold do_all, storage_all, item.
  destruct (PyStr.split arg) as [|c rest]; simpl.
  - unfold PyDict.values. now rewrite map_map.
  - destruct (known_class c); simpl; [|reflexivity].
    now rewrite (map_filter_values obj_str (fun o => String.eqb (cls o) c)).
Qed.

(** C3. Whatever the storage map holds, [all] with no argument prints the
    list of the string representations of all stored instances, in the
    order of the map, and [all <class>] with a known class name prints the
    list of those of the stored instances whose class has that name. *)
Theorem all_lists (obj_str : Obj -> string) (e : Env) (arg : string)
    (con0 : Console) :
  let st := storage con0 in
  (PyStr.split arg = [] ->
   printed (do_all obj_str arg st) =
   [PList (map obj_str (PyDict.values (objects st)))]) /\
  (forall c rest, PyStr.split arg = c :: rest -> known_class c = true ->
   printed (do_all obj_str arg st) =
   [PList (map obj_str (filter (fun o => String.eqb (cls o) c)
                          (PyDict.values (objects st))))]) /\
  out (onecmd obj_str e "all" con0) =
  [PList (map obj_str (PyDict.values (objects st)))] /\
  (forall c, known_class c = true ->
   out (onecmd obj_str e ("all " ++ c) con0) =
   [PList (map obj_str (filter (fun o => String.eqb (cls o) c)
                          (PyDict.values (objects st))))]).
Proof.
  intros st. repeat split.
  - intros H. now rewrite do_all_prints, H.
  - intros c rest H Hc. now rewrite do_all_prints, H, Hc.
  - change (out (onecmd obj_str e "all" con0))
      with (printed (do_all obj_str "" st)).
    now rewrite do_all_prints.
  - intros c Hc. pose proof (known_class_inv _ Hc). subst c.
    change (out (onecmd obj_str e ("all " ++ "BaseModel") con0))
      with (printed (do_all obj_str "BaseModel" st)).
    now rewrite do_all_prints.
Qed.

Lemma all_lists_witness :
  out (onecmd sample_str sample_env "all" sample_console) =
  [PList ["[BaseModel] (4f3c-11)"; "[BaseModel] (9a7e-22)"]] /\
  out (onecmd sample_str sample_env "all BaseModel" sample_console) =
  [PList ["[BaseModel] (4f3c-11)"; "[BaseModel] (9a7e-22)"]].
Proof.
  destruct (all_lists sample_str sample_env "BaseModel" sample_console)
    as (_ & _ & Hall & Hcls).
  split; [exact Hall|exact (Hcls "BaseModel" eq_refl)].
Defined.

(** Each handler turns down a first argument that names no class, with the
    engine left as it was. *)
Lemma unknown_class_rejected (obj_str : Obj -> string) (arg c : string)
    (rest : list string) (e : Env) (st : FileStorage) :
  PyStr.split arg = c :: rest -> known_class c = false ->
  let r := mkRun st [PStr "** class doesn't exist ** "] false in
  do_create arg e st = r /\ do_show obj_str arg st = r /\
  do_destroy arg st = r /\ do_all obj_str arg st = r.
Proof.
  intros Hs Hc r. subst r.
  unfold do_create, do_show, do_destroy, do_all.
  rewrite Hs, !validate_classname_cases, Hc. unfold item. simpl.
  now rewrite Hc.
Qed.

(** C4. With a first argument that names no class, here [MyModel], each of
    [create], [show], [destroy] and [all] leaves the storage engine as it
    was and prints the class-does-not-exist message with a blank after the
    closing asterisks, which is not the message without that blank. *)
Theorem unknown_class_message_trailing_blank :
  let line_out line :=
    out (onecmd sample_str sample_env line sample_console) in
  let line_storage line :=
    storage (con (onecmd sample_str sample_env line sample_console)) in
  Forall (fun line =>
            line_out line = [PStr "** class doesn't exist ** "] /\
            line_out line <> [PStr "** class doesn't exist **"] /\
            line_storage line = storage sample_console)
    ["create MyModel"; "show MyModel 4f3c-11"; "destroy MyModel 4f3c-11";
     "all MyModel"].
Proof.
  repeat constructor; discriminate.
Qed.

Lemma parseline_line_nonempty (line l : string) (p : string * string) :
  parseline line = (Some p, l) -> exists l0 ls, l = String l0 ls.
Proof.
  unfold parseline. destruct (PyStr.strip line) as [|a r]; [discriminate|].
  destruct (Ascii.eqb a "!"); [discriminate|].
  destruct (span_ident _) as [cmd rest]. intros H. injection H as _ <-.
  destruct (Ascii.eqb a "?"); simpl; eauto.
Qed.

(** A failed validation prints one of the three messages. *)
Lemma validate_classname_invalid (args : list string) (check_id : bool) :
  invalid_args args check_id ->
  exists m, In m validation_errors /\
            validate_classname args check_id = (false, [PStr m]).
Proof.
  rewrite validate_classname_cases. unfold validation_errors.
  destruct args as [|c rest]; simpl; intros H.
  - eexists; split; [|reflexivity]. now left.
  - destruct (known_class c).
    + destruct H as [H|[-> ->]]; [discriminate|].
      eexists; split; [|reflexivity]. right; right; now left.
    + eexists; split; [|reflexivity]. right; now left.
Qed.

(** Validation succeeds on all other argument lists. *)
Lemma validate_classname_valid (args : list string) (check_id : bool) :
  ~ invalid_args args check_id ->
  validate_classname args check_id = (true, []).
Proof.
  rewrite validate_classname_cases.
  destruct args as [|c rest]; simpl; intros H; [tauto|].
  destruct (known_class c); [|tauto].
  destruct rest; [|reflexivity].
  destruct check_id; [|reflexivity]. exfalso. apply H. now right.
Qed.

(** C5. A line whose command is [create], [show] or [destroy] and whose
    arguments fail validation (no class name, a first argument that names
    no class, or no id for [show] and [destroy]) prints one of the fixed
    error messages and nothing else, leaves the storage engine (its map,
    its file, its count of writes) as it was, and the loop goes on to the
    next line. *)
Theorem validation_failure_stops_handler (obj_str : Obj -> string) (e : Env)
    (line verb arg l : string) (c : Console) (rest : list (Env * string)) :
  parseline line = (Some (verb, arg), l) ->
  In verb ["create"; "show"; "destroy"] ->
  invalid_args (PyStr.split arg) (negb (String.eqb verb "create")) ->
  let s := onecmd obj_str e line c in
  (exists m, In m validation_errors /\ out s = [PStr m]) /\
  storage (con s) = storage c /\
  halt s = false /\
  cmdloop obj_str ((e, line) :: rest) c =
  (fst (cmdloop obj_str rest (con s)),
   out s ++ snd (cmdloop obj_str rest (con s))).
Proof.
  intros Hp Hv Hin s.
  destruct (parseline_line_nonempty _ _ _ Hp) as (l0 & ls & ->).
  assert (Hs : (exists m, In m validation_errors /\ out s = [PStr m]) /\
               storage (con s) = storage c /\ halt s = false).
  { subst s.
    destruct Hv as [<-|[<-|[<-|[]]]];
      rewrite (onecmd_parsed obj_str e line c _ _ _ _ _ Hp);
      simpl in Hin;
      destruct (validate_classname_invalid _ _ Hin) as (m & Hm & Hval);
      unfold dispatch; simpl;
      [ rewrite do_create_invalid by now rewrite Hval
      | rewrite do_show_invalid by now rewrite Hval
      | rewrite do_destroy_invalid by now rewrite Hval ];
      rewrite Hval; simpl; (split; [exists m; now split|now split]). }
  destruct Hs as (Hm & Hst & Hh). repeat split; try assumption.
  simpl. fold s. rewrite Hh.
  now destruct (cmdloop obj_str rest (con s)).
Qed.

Lemma validation_failure_stops_handler_witness :
  (exists m, In m validation_errors /\
     out (onecmd sample_str sample_env "destroy BaseModel" sample_console)
     = [PStr m]) /\
  storage (con (onecmd sample_str sample_env "destroy BaseModel"
                  sample_console)) = storage sample_console /\
  halt (onecmd sample_str sample_env "destroy BaseModel" sample_console)
  = false.
Proof.
  destruct (validation_failure_stops_handler sample_str sample_env
              "destroy BaseModel" "destroy" "BaseModel" "destroy BaseModel"
              sample_console [] eq_refl
              (or_intror (or_intror (or_introl eq_refl)))
              (or_intror (conj eq_refl eq_refl)))
    as (Hm & Hst & Hh & _).
  exact (conj Hm (conj Hst Hh)).
Defined.

(** C6. A [create] that passes validation stores the new instance and ends
    with the file holding the map it leaves; a [destroy] that finds its key
    deletes it and ends with the file holding the map it leaves; and no line
    at all changes the map without the file being rewritten to hold the new
    map. *)
Theorem mutation_is_persisted (obj_str : Obj -> string) :
  (forall arg c rest e st,
     PyStr.split arg = c :: rest -> known_class c = true ->
     let st' := after (do_create arg e st) in
     PyDict.get (key_of c (uuid4 e)) (objects st') = Some (created c e) /\
     file st' = Some (objects st') /\ writes st' = S (writes st)) /\
  (forall arg c i rest o st,
     PyStr.split arg = c :: i :: rest -> known_class c = true ->
     PyDict.get (key_of c i) (objects st) = Some o ->
     let st' := after (do_destroy arg st) in
     objects st' = PyDict.del (key_of c i) (objects st) /\
     file st' = Some (objects st') /\ writes st' = S (writes st)) /\
  (forall e line c,
     let st' := storage (con (onecmd obj_str e line c)) in
     objects st' <> objects (storage c) ->
     file st' = Some (objects st') /\ writes st' = S (writes (storage c))).
Proof.
  split; [|split].
  - intros arg c rest e st Hs Hc st'. subst st'.
    rewrite (do_create_ok arg c rest e st Hs Hc). simpl.
    repeat split. apply PyDictFacts.get_set_same.
  - intros arg c i rest o st Hs Hc Hget st'. subst st'.
    rewrite (do_destroy_ok arg c i rest st Hs Hc), Hget. simpl.
    repeat split.
  - intros e line c st' Hne. subst st'.
    destruct (onecmd_cases obj_str e line c) as [[arg Ha]|[[arg Ha]|Ha]];
      cbv zeta in Ha; rewrite Ha in *.
    + destruct (do_create_saves arg e (storage c)) as [E|E];
        [rewrite E in Hne; contradiction|exact E].
    + destruct (do_destroy_saves arg (storage c)) as [E|E];
        [rewrite E in Hne; contradiction|exact E].
    + contradiction.
Qed.

Lemma mutation_is_persisted_witness :
  let st1 := storage (con (onecmd sample_str sample_env
                             "destroy BaseModel 9a7e-22" sample_console)) in
  objects st1 <> objects (storage sample_console) /\
  file st1 = Some (objects st1) /\ writes st1 = 3.
Proof.
  intros st1.
  assert (Hne : objects st1 <> objects (storage sample_console))
    by discriminate.
  split; [exact Hne|].
  exact (proj2 (proj2 (mutation_is_persisted sample_str))
           sample_env "destroy BaseModel 9a7e-22" sample_console Hne).
Defined.

Section Invariant.

Variable obj_str : Obj -> string.

Lemma onecmd_wf e line c :
  PyDict.wf (objects (storage c)) ->
  PyDict.wf (objects (storage (con (onecmd obj_str e line c)))).
Proof.
  intros H.
  destruct (onecmd_cases obj_str e line c) as [[arg Ha]|[[arg Ha]|Ha]];
    cbv zeta in Ha; rewrite Ha.
  - now apply do_create_wf.
  - now apply do_destroy_wf.
  - exact H.
Qed.

Lemma run_lines_wf lines c :
  PyDict.wf (objects (storage c)) ->
  PyDict.wf (objects (storage (run_lines obj_str lines c))).
Proof.
  revert c. induction lines as [|[e line] lines IH]; simpl; intros c H;
    [exact H|].
  apply IH. now apply onecmd_wf.
Qed.

Lemma cmdloop_wf lines c :
  PyDict.wf (objects (storage c)) ->
  PyDict.wf (objects (storage (fst (cmdloop obj_str lines c)))).
Proof.
  revert c. induction lines as [|[e line] lines IH]; intros c H.
  - unfold cmdloop, fst. now apply onecmd_wf.
  - simpl.
    pose proof (onecmd_wf e line c H) as H1.
    destruct (halt (onecmd obj_str e line c)); simpl; [exact H1|].
    specialize (IH _ H1).
    now destruct (cmdloop obj_str lines (con (onecmd obj_str e line c))).
Qed.

End Invariant.

(** C7. Key uniqueness is an invariant: when no key occurs twice in the
    storage map, then after any sequence of lines, run one by one or by the
    command loop up to its exit, no key occurs twice and each key is bound
    to at most one instance. *)
Theorem keys_stay_unique (obj_str : Obj -> string)
    (lines : list (Env * string)) (c : Console) :
  PyDict.wf (objects (storage c)) ->
  let d1 := objects (storage (run_lines obj_str lines c)) in
  let d2 := objects (storage (fst (cmdloop obj_str lines c))) in
  (PyDict.wf d1 /\ PyDict.functional d1) /\
  (PyDict.wf d2 /\ PyDict.functional d2).
Proof.
  intros H d1 d2.
  assert (H1 : PyDict.wf d1) by now apply run_lines_wf.
  assert (H2 : PyDict.wf d2) by now apply cmdloop_wf.
  auto using PyDictFacts.wf_functional.
Qed.

Lemma keys_stay_unique_witness :
  PyDict.wf
    (objects
       (storage
          (run_lines sample_str
             [(sample_env, "create BaseModel");
              (sample_env, "create BaseModel");
              (other_env, "create BaseModel");
              (other_env, "destroy BaseModel 4f3c-11")]
             empty_console))).
Proof.
  refine (proj1 (proj1 (keys_stay_unique sample_str _ empty_console _))).
  constructor.
Defined.

(** C8. [show] and [all] are read-only: for every argument text and every
    storage engine, they hand the engine back as it was (map, file and
    count of writes), on every branch, and so does a line dispatched to
    them. *)
Theorem show_and_all_read_only (obj_str : Obj -> string) (arg line : string)
    (e : Env) (st : FileStorage) (c : Console) :
  after (do_show obj_str arg st) = st /\
  after (do_all obj_str arg st) = st /\
  storage (con (dispatch obj_str "show" arg line e c)) = storage c /\
  storage (con (dispatch obj_str "all" arg line e c)) = storage c.
Proof.
  repeat split.
  - apply do_show_frame.
  - apply do_all_frame.
  - apply (do_show_frame obj_str arg (storage c)).
  - apply (do_all_frame obj_str arg (storage c)).
Qed.

(** C9. An empty line, or one of white space only, is a no-op whatever the
    last command was: nothing is printed, the interpreter (storage engine
    and [lastcmd]) is as before, and the loop goes on with the next
    line. *)
Theorem empty_line_is_noop (obj_str : Obj -> string) (e : Env)
    (line : string) (c : Console) (rest : list (Env * string)) :
  PyStr.blank line = true ->
  onecmd obj_str e line c = mkStep c [] false /\
  cmdloop obj_str ((e, line) :: rest) c = cmdloop obj_str rest c.
Proof.
  intros H.
  assert (E : onecmd obj_str e line c = mkStep c [] false).
  { unfold onecmd. now rewrite (parseline_blank line H). }
  split; [exact E|].
  simpl. rewrite E. simpl. now destruct (cmdloop obj_str rest c).
Qed.

Lemma empty_line_is_noop_witness :
  PyStr.blank "" = true /\
  lastcmd sample_console = "create BaseModel" /\
  onecmd sample_str sample_env "" sample_console
  = mkStep sample_console [] false.
Proof.
  split; [reflexivity|]. split; [reflexivity|].
  exact (proj1 (empty_line_is_noop sample_str sample_env "" sample_console
                  [] eq_refl)).
Defined.

Section ExtraArguments.

Variable obj_str : Obj -> string.

(** The handlers read the first item, or the first two, of the split
    argument text and nothing else. *)
Lemma do_create_first arg arg' c rest rest' e st :
  PyStr.split arg = c :: rest -> PyStr.split arg' = c :: rest' ->
  do_create arg e st = do_create arg' e st.
Proof using.
  intros H H'. unfold do_create.
  rewrite H, H', !validate_classname_cases. unfold item. simpl.
  destruct (known_class c); [|reflexivity].
  now destruct rest, rest'.
Qed.

Lemma do_show_first_two arg arg' c i rest rest' st :
  PyStr.split arg = c :: i :: rest -> PyStr.split arg' = c :: i :: rest' ->
  do_show obj_str arg st = do_show obj_str arg' st.
Proof.
  intros H H'. unfold do_show.
  now rewrite H, H', !validate_classname_cases.
Qed.

Lemma do_destroy_first_two arg arg' c i rest rest' st :
  PyStr.split arg = c :: i :: rest -> PyStr.split arg' = c :: i :: rest' ->
  do_destroy arg st = do_destroy arg' st.
Proof using.
  intros H H'. unfold do_destroy.
  now rewrite H, H', !validate_classname_cases.
Qed.

End ExtraArguments.

(** C10. Arguments beyond those a command needs are ignored: for words
    [c] and [i] and any further text [extra], [show] and [destroy] on
    [c i extra] do what they do on [c i], and [create] on [c extra] does
    what it does on [c]. *)
Theorem extra_arguments_ignored (obj_str : Obj -> string)
    (c i extra : string) (e : Env) (st : FileStorage) :
  PyStr.is_word c = true -> PyStr.is_word i = true ->
  do_show obj_str (c ++ " " ++ i ++ " " ++ extra) st
  = do_show obj_str (c ++ " " ++ i) st /\
  do_destroy (c ++ " " ++ i ++ " " ++ extra) st
  = do_destroy (c ++ " " ++ i) st /\
  do_create (c ++ " " ++ extra) e st = do_create c e st.
Proof.
  intros Hc Hi.
  assert (H3 : PyStr.split (c ++ " " ++ i ++ " " ++ extra)
               = c :: i :: PyStr.split extra).
  { simpl append.
    now rewrite !PyStrFacts.split_word_sep by (assumption || reflexivity). }
  assert (H2 := split_two c i Hc Hi).
  assert (H1 : PyStr.split (c ++ " " ++ extra) = c :: PyStr.split extra).
  { simpl append.
    now rewrite PyStrFacts.split_word_sep by (assumption || reflexivity). }
  repeat split.
  - exact (do_show_first_two obj_str _ _ c i _ _ st H3 H2).
  - exact (do_destroy_first_two _ _ c i _ _ st H3 H2).
  - exact (do_create_first _ _ c _ _ e st H1 (PyStrFacts.split_word c Hc)).
Qed.

Lemma extra_arguments_ignored_witness :
  do_show sample_str "BaseModel 4f3c-11 and  more" (storage sample_console)
  = do_show sample_str "BaseModel 4f3c-11" (storage sample_console) /\
  do_destroy "BaseModel 4f3c-11 and  more" (storage sample_console)
  = do_destroy "BaseModel 4f3c-11" (storage sample_console) /\
  do_create "BaseModel and  more" sample_env (storage sample_console)
  = do_create "BaseModel" sample_env (storage sample_console).
Proof.
  exact (extra_arguments_ignored sample_str "BaseModel" "4f3c-11"
           "and  more" sample_env (storage sample_console)
           eq_refl eq_refl).
Defined.


(** * Further properties of the console *)

(** ** [validate_classname] *)

(** X1. [validate_classname] returns a true value exactly when there is a
    first argument, it names a known class, and (when an id is asked for)
    there is a second argument; it prints nothing when it returns a true
    value and exactly one of its three messages otherwise; and a first
    argument that names no class is reported as such whether or not an id
    is asked for or given. *)
Theorem validate_classname_decides (args : list string) (check_id : bool) :
  let v := validate_classname args check_id in
  (fst v = true <->
   exists c rest, args = c :: rest /\ known_class c = true /\
                  (check_id = true -> rest <> [])) /\
  (fst v = true -> snd v = []) /\
  (fst v = false -> exists m, In m validation_errors /\ snd v = [PStr m]) /\
  (forall c rest, args = c :: rest -> known_class c = false ->
                  v = (false, [PStr "** class doesn't exist ** "])).
Proof.
  intros v. subst v. rewrite validate_classname_cases.
  destruct args as [|c rest]; simpl.
  - split; [split; [discriminate|]|split; [discriminate|split]].
    + intros (c & rest & H & _). discriminate H.
    + intros _. exists "** class name missing ** ".
      split; [now left|reflexivity].
    + intros c rest H. discriminate H.
  - destruct (known_class c) eqn:Hc.
    + assert (Hno : forall c' rest', c :: rest = c' :: rest' ->
                      known_class c' = false -> False).
      { intros c' rest' H Hk. injection H as <- _. congruence. }
      destruct rest as [|i rest]; [destruct check_id|]; simpl.
      * split; [split; [discriminate|]|split; [discriminate|split]].
        -- intros (c' & rest' & H & _ & Hr). injection H as _ <-.
           exfalso. now apply Hr.
        -- intros _. exists "** instance id missing **".
           split; [right; right; now left|reflexivity].
        -- intros c' rest' H Hk. exfalso. eauto.
      * split; [split; [|reflexivity]|split; [reflexivity|split]].
        -- intros _. exists c, []. repeat split; [exact Hc|discriminate].
        -- discriminate.
        -- intros c' rest' H Hk. exfalso. eauto.
      * split; [split; [|reflexivity]|split; [reflexivity|split]].
        -- intros _. exists c, (i :: rest).
           repeat split; [exact Hc|discriminate].
        -- discriminate.
        -- intros c' rest' H Hk. exfalso. eauto.
    + split; [split; [discriminate|]|split; [discriminate|split]].
      * intros (c' & rest' & H & Hk & _). injection H as <- _. congruence.
      * intros _. exists "** class doesn't exist ** ".
        split; [right; now left|reflexivity].
      * reflexivity.
Qed.

Lemma validate_classname_decides_witness :
  validate_classname ["MyModel"] true
  = (false, [PStr "** class doesn't exist ** "]) /\
  validate_classname ["BaseModel"] true
  = (false, [PStr "** instance id missing **"]) /\
  fst (validate_classname ["BaseModel"; "4f3c-11"] true) = true.
Proof.
  split.
  - exact (proj2 (proj2 (proj2 (validate_classname_decides ["MyModel"] true)))
             "MyModel" [] eq_refl eq_refl).
  - split; [reflexivity|].
    apply (proj1 (validate_classname_decides ["BaseModel"; "4f3c-11"] true)).
    exists "BaseModel", ["4f3c-11"]. repeat split. discriminate.
Defined.

(** ** Which lines end the session, and which change the storage *)

Lemma do_create_continues (arg : string) (e : Env) (st : FileStorage) :
  stop (do_create arg e st) = false.
Proof.
  unfold do_create. now destruct (validate_classname _ _) as [[] msg].
Qed.

Lemma do_destroy_continues (arg : string) (st : FileStorage) :
  stop (do_destroy arg st) = false.
Proof.
  unfold do_destroy. destruct (validate_classname _ _) as [[] msg]; simpl;
    [|reflexivity].
  now destruct (PyDict.get _ _).
Qed.

(** Case analysis on the command word, along the chain of [dispatch]. *)
Ltac verb_cases cmd :=
  unfold dispatch;
  repeat match goal with
         | |- context [String.eqb cmd ?v] =>
             destruct (String.eqb_spec cmd v) as [->|?]
         end.

(** X2. A line whose command is [quit] or [EOF], whatever follows the
    command word, prints nothing, leaves the storage engine as it was and
    ends the loop: the lines after it are not run. The end of the input
    does the same. *)
Theorem quit_ends_session (obj_str : Obj -> string) (e : Env)
    (line verb arg l : string) (c : Console) (rest : list (Env * string)) :
  parseline line = (Some (verb, arg), l) ->
  verb = "quit" \/ verb = "EOF" ->
  let s := onecmd obj_str e line c in
  out s = [] /\ storage (con s) = storage c /\ halt s = true /\
  cmdloop obj_str ((e, line) :: rest) c = (con s, []) /\
  cmdloop obj_str [] c = (mkConsole (storage c) EmptyString, []).
Proof.
  intros Hp Hv s.
  destruct (parseline_line_nonempty _ _ _ Hp) as (l0 & ls & ->).
  assert (Hs : out s = [] /\ storage (con s) = storage c /\ halt s = true).
  { subst s. destruct Hv as [->| ->];
      rewrite (onecmd_parsed obj_str e line c _ _ _ _ _ Hp);
      repeat split. }
  destruct Hs as (Ho & Hst & Hh). repeat split; try assumption.
  simpl. fold s. rewrite Hh. now rewrite Ho.
Qed.

Lemma quit_ends_session_witness :
  cmdloop sample_str
    [(sample_env, "  quit now"); (other_env, "create BaseModel")]
    sample_console
  = (mkConsole (storage sample_console) "quit now", []).
Proof.
  exact (proj1 (proj2 (proj2 (proj2
           (quit_ends_session sample_str sample_env "  quit now" "quit"
              "now" "quit now" sample_console
              [(other_env, "create BaseModel")] eq_refl
              (or_introl eq_refl)))))).
Defined.

(** X3. Only [quit] and [EOF] end the session: when a line stops the loop,
    its command word is one of the two. No other handler, no error and no
    unknown command does. *)
Theorem only_quit_and_EOF_halt (obj_str : Obj -> string) (e : Env)
    (line : string) (c : Console) :
  halt (onecmd obj_str e line c) = true ->
  exists verb arg l, parseline line = (Some (verb, arg), l) /\
                     (verb = "quit" \/ verb = "EOF").
Proof.
  unfold onecmd. destruct (parseline line) as [parsed l].
  destruct l as [|l0 ls]; simpl; [discriminate|].
  destruct parsed as [[cmd arg]|]; simpl; [|discriminate].
  destruct cmd as [|v0 vs]; simpl; [discriminate|].
  set (cmd := String v0 vs). clearbody cmd. verb_cases cmd; simpl;
    intros H; try discriminate H; eauto 6.
  - now rewrite do_create_continues in H.
  - now rewrite (proj2 (do_show_frame obj_str arg (storage c))) in H.
  - now rewrite do_destroy_continues in H.
  - now rewrite (proj2 (do_all_frame obj_str arg (storage c))) in H.
Qed.

Lemma only_quit_and_EOF_halt_witness :
  exists verb arg l,
    parseline "EOF" = (Some (verb, arg), l) /\ (verb = "quit" \/ verb = "EOF").
Proof.
  exact (only_quit_and_EOF_halt sample_str sample_env "EOF" sample_console
           eq_refl).
Defined.

(** X4. Only [create] and [destroy] change the storage engine: when a line
    leaves the engine (its map, its file or its count of writes) other than
    it was, its command word is one of the two. *)
Theorem only_create_and_destroy_mutate (obj_str : Obj -> string) (e : Env)
    (line : string) (c : Console) :
  storage (con (onecmd obj_str e line c)) <> storage c ->
  exists verb arg l, parseline line = (Some (verb, arg), l) /\
                     (verb = "create" \/ verb = "destroy").
Proof.
  unfold onecmd. destruct (parseline line) as [parsed l].
  destruct l as [|l0 ls]; simpl; [congruence|].
  destruct parsed as [[cmd arg]|]; simpl; [|congruence].
  destruct cmd as [|v0 vs]; simpl; [congruence|].
  set (cmd := String v0 vs). clearbody cmd. verb_cases cmd; simpl;
    intros H; try (exfalso; now apply H); eauto 6.
  - exfalso. apply H. apply (do_show_frame obj_str arg (storage c)).
  - exfalso. apply H. apply (do_all_frame obj_str arg (storage c)).
Qed.

Lemma only_create_and_destroy_mutate_witness :
  exists verb arg l,
    parseline "destroy BaseModel 4f3c-11" = (Some (verb, arg), l) /\
    (verb = "create" \/ verb = "destroy").
Proof.
  apply (only_create_and_destroy_mutate sample_str sample_env
           "destroy BaseModel 4f3c-11" sample_console).
  discriminate.
Defined.

(** X5. The console has no command but the seven of [verbs]: a line with
    any other command word, with none, or one that starts with an
    exclamation mark, prints the unknown-syntax message with the stripped
    line, leaves the storage engine as it was and does not end the loop. *)
Theorem unknown_command_rejected (obj_str : Obj -> string) (e : Env)
    (line : string) (c : Console) :
  (forall verb arg, fst (parseline line) = Some (verb, arg) ->
                    ~ In verb verbs) ->
  snd (parseline line) <> EmptyString ->
  let s := onecmd obj_str e line c in
  out s = [PStr ("*** Unknown syntax: " ++ snd (parseline line))] /\
  storage (con s) = storage c /\ halt s = false.
Proof.
  unfold onecmd. destruct (parseline line) as [parsed l]. simpl.
  intros Hv Hl. destruct l as [|l0 ls]; [congruence|].
  destruct parsed as [[cmd arg]|]; simpl; [|repeat split].
  specialize (Hv cmd arg eq_refl).
  destruct cmd as [|v0 vs]; simpl; [repeat split|].
  set (cmd := String v0 vs) in *. clearbody cmd. unfold verbs in Hv.
  verb_cases cmd; simpl; try (exfalso; apply Hv; simpl; tauto).
  repeat split.
Qed.

Lemma unknown_command_rejected_witness :
  out (onecmd sample_str sample_env "update BaseModel 4f3c-11 name x"
         sample_console)
  = [PStr "*** Unknown syntax: update BaseModel 4f3c-11 name x"] /\
  storage (con (onecmd sample_str sample_env
                  "update BaseModel 4f3c-11 name x" sample_console))
  = storage sample_console.
Proof.
  assert (H := unknown_command_rejected sample_str sample_env
                 "update BaseModel 4f3c-11 name x" sample_console).
  cbv zeta in H. destruct H as (Ho & Hs & _).
  - intros verb arg Hp. injection Hp as <- _. simpl.
    intros [H|[H|[H|[H|[H|[H|[H|[]]]]]]]]; discriminate H.
  - discriminate.
  - split; [exact Ho|exact Hs].
Defined.

(** ** More on dictionaries *)
Module PyDictMore.
Import PyDict.
Section More.
Context {V : Type}.
Implicit Types (d : t V) (k : string) (v : V).

(** Assigning to a new key appends the entry. *)
Lemma set_fresh k v d : get k d = None -> set k v d = d ++ [(k, v)].
Proof.
  induction d as [|[k' v'] d IH]; simpl; [reflexivity|].
  destruct (String.eqb k k'); [discriminate|].
  intros H. now rewrite (IH H).
Qed.

(** Assigning to a key that is there keeps the number of entries. *)
Lemma set_present_length k v v' d :
  get k d = Some v' -> List.length (set k v d) = List.length d.
Proof.
  induction d as [|[k1 v1] d IH]; simpl; [discriminate|].
  destruct (String.eqb k k1); simpl; [reflexivity|].
  intros H. now rewrite (IH H).
Qed.

(** Insert a new key, delete it: the dictionary is as before. *)
Lemma del_set_fresh k v d : get k d = None -> del k (set k v d) = d.
Proof.
  induction d as [|[k' v'] d IH]; simpl.
  - now rewrite String.eqb_refl.
  - destruct (String.eqb k k') eqn:E; [discriminate|]. simpl. rewrite E.
    intros H. now rewrite (IH H).
Qed.

Lemma del_length k v d :
  get k d = Some v -> S (List.length (del k d)) = List.length d.
Proof.
  induction d as [|[k' v'] d IH]; simpl; [discriminate|].
  destruct (String.eqb k k'); simpl; [reflexivity|].
  intros H. now rewrite (IH H).
Qed.

(** In a dictionary, an entry is what [get] finds under its key. *)
Lemma In_get k v d : wf d -> In (k, v) d -> get k d = Some v.
Proof.
  unfold wf. induction d as [|[k' v'] d IH]; simpl; intros Hwf Hin;
    [contradiction|].
  inversion Hwf as [|? ? Hnin Hnd]; subst.
  destruct Hin as [E|Hin].
  - injection E as -> ->. now rewrite String.eqb_refl.
  - destruct (String.eqb_spec k k') as [->|_]; [|auto].
    exfalso. apply Hnin. change k' with (fst (k', v)). now apply in_map.
Qed.

Lemma Forall_set (P : string * V -> Prop) k v d :
  P (k, v) -> Forall P d -> Forall P (set k v d).
Proof.
  intros Hkv H. induction H as [|[k' v'] d Hx Hd IH]; simpl.
  - now repeat constructor.
  - destruct (String.eqb_spec k k') as [->|_]; constructor; auto.
Qed.

Lemma Forall_del (P : string * V -> Prop) k d :
  Forall P d -> Forall P (del k d).
Proof.
  intros H. induction H as [|[k' v'] d Hx Hd IH]; simpl; [constructor|].
  destruct (String.eqb k k'); [exact Hd|now constructor].
Qed.

End More.
End PyDictMore.

(** ** Missing instances, and what [create] and [destroy] leave alone *)

(** X6. For a known class and an id that is one word, when the storage map
    has no entry under the key, [show] and [destroy] both print the
    no-instance message; [destroy] then deletes nothing and does not write
    the file. *)
Theorem missing_instance_reported (obj_str : Obj -> string) (e : Env)
    (c i : string) (con0 : Console) :
  known_class c = true -> PyStr.is_word i = true ->
  PyDict.get (key_of c i) (objects (storage con0)) = None ->
  onecmd obj_str e ("show " ++ c ++ " " ++ i) con0
  = mkStep (mkConsole (storage con0) ("show " ++ c ++ " " ++ i))
           [PStr "** no instance found **"] false /\
  onecmd obj_str e ("destroy " ++ c ++ " " ++ i) con0
  = mkStep (mkConsole (storage con0) ("destroy " ++ c ++ " " ++ i))
           [PStr "** no instance found **"] false.
Proof.
  intros Hc Hi Hget.
  assert (Hw : PyStr.is_word c = true)
    by (pose proof (known_class_inv _ Hc); now subst c).
  rewrite (onecmd_show obj_str e c i con0 Hc Hi).
  rewrite (onecmd_destroy obj_str e c i con0 Hc Hi).
  rewrite (do_show_ok obj_str _ c i [] _ (split_two _ _ Hw Hi) Hc).
  rewrite (do_destroy_ok _ c i [] _ (split_two _ _ Hw Hi) Hc).
  now rewrite Hget.
Qed.

Lemma missing_instance_reported_witness :
  onecmd sample_str sample_env "destroy BaseModel 0000-00" sample_console
  = mkStep (mkConsole (storage sample_console) "destroy BaseModel 0000-00")
           [PStr "** no instance found **"] false.
Proof.
  exact (proj2 (missing_instance_reported sample_str sample_env "BaseModel"
                  "0000-00" sample_console eq_refl eq_refl eq_refl)).
Defined.

(** X7. [destroy] touches one key only: every other key is bound after it
    as it was before, and when it finds its instance the map has exactly
    one entry less. *)
Theorem destroy_frame (arg c i : string) (rest : list string)
    (st : FileStorage) :
  PyStr.split arg = c :: i :: rest ->
  let st' := after (do_destroy arg st) in
  (forall k, k <> key_of c i ->
             PyDict.get k (objects st') = PyDict.get k (objects st)) /\
  (forall o, known_class c = true ->
             PyDict.get (key_of c i) (objects st) = Some o ->
             S (List.length (objects st')) = List.length (objects st)).
Proof.
  intros Hs st'. subst st'. split.
  - intros k Hk. destruct (known_class c) eqn:Hc.
    + rewrite (do_destroy_ok arg c i rest st Hs Hc).
      destruct (PyDict.get (key_of c i) (objects st)); simpl; [|reflexivity].
      apply PyDictFacts.get_del_other. congruence.
    + rewrite do_destroy_invalid; [reflexivity|].
      now rewrite Hs, validate_classname_cases, Hc.
  - intros o Hc Hget. rewrite (do_destroy_ok arg c i rest st Hs Hc), Hget.
    simpl. now apply (PyDictMore.del_length _ o).
Qed.

Lemma destroy_frame_witness :
  PyDict.get "BaseModel.9a7e-22"
    (objects (after (do_destroy "BaseModel 4f3c-11"
                       (storage sample_console))))
  = Some (mkObj "BaseModel" "9a7e-22" 20 21).
Proof.
  rewrite (proj1 (destroy_frame "BaseModel 4f3c-11" "BaseModel" "4f3c-11" []
                    (storage sample_console) eq_refl)
             "BaseModel.9a7e-22").
  - reflexivity.
  - discriminate.
Defined.

(** X8. [create] touches one key only: every other key is bound after it
    as it was before; and when the key of the new instance is new, the
    instance goes last in the map, so that [all] prints what it printed
    before followed by the new instance. *)
Theorem create_frame (obj_str : Obj -> string) (arg c : string)
    (rest : list string) (e : Env) (st : FileStorage) :
  PyStr.split arg = c :: rest ->
  let st' := after (do_create arg e st) in
  (forall k, k <> key_of c (uuid4 e) ->
             PyDict.get k (objects st') = PyDict.get k (objects st)) /\
  (known_class c = true ->
   PyDict.get (key_of c (uuid4 e)) (objects st) = None ->
   objects st' = objects st ++ [(key_of c (uuid4 e), created c e)] /\
   printed (do_all obj_str "" st') =
   [PList (map obj_str (PyDict.values (objects st))
           ++ [obj_str (created c e)])]).
Proof.
  intros Hs st'. subst st'. split.
  - intros k Hk. destruct (known_class c) eqn:Hc.
    + rewrite (do_create_ok arg c rest e st Hs Hc). simpl.
      apply PyDictFacts.get_set_other. congruence.
    + rewrite do_create_invalid; [reflexivity|].
      now rewrite Hs, validate_classname_cases, Hc.
  - intros Hc Hget. rewrite do_all_prints.
    rewrite (do_create_ok arg c rest e st Hs Hc). simpl.
    rewrite (PyDictMore.set_fresh _ _ _ Hget). split; [reflexivity|].
    unfold PyDict.values. now rewrite !map_app.
Qed.

Lemma create_frame_witness :
  printed (do_all sample_str ""
             (after (do_create "BaseModel" (mkEnv "c0de-33" 30 31)
                       (storage sample_console))))
  = [PList ["[BaseModel] (4f3c-11)"; "[BaseModel] (9a7e-22)";
            "[BaseModel] (c0de-33)"]].
Proof.
  exact (proj2 (proj2 (create_frame sample_str "BaseModel" "BaseModel" []
                         (mkEnv "c0de-33" 30 31) (storage sample_console)
                         eq_refl)
                  eq_refl eq_refl)).
Defined.

(** X9. Create, then destroy what was created: when the identifier drawn
    is a word and its key is new, [create <class>] followed by
    [destroy <class> <id>] with the identifier printed leaves the storage
    map as it was before the two, with the file holding that map after two
    more writes; the [destroy] prints nothing. *)
Theorem create_destroy_round_trip (obj_str : Obj -> string) (c : string)
    (e e' : Env) (con0 : Console) :
  known_class c = true -> PyStr.is_word (uuid4 e) = true ->
  PyDict.get (key_of c (uuid4 e)) (objects (storage con0)) = None ->
  let s1 := onecmd obj_str e ("create " ++ c) con0 in
  let s2 := onecmd obj_str e' ("destroy " ++ c ++ " " ++ uuid4 e) (con s1) in
  out s1 = [PStr (uuid4 e)] /\ out s2 = [] /\
  storage (con s2)
  = mkStorage (objects (storage con0)) (Some (objects (storage con0)))
              (S (S (writes (storage con0)))).
Proof.
  intros Hc Hi Hget s1 s2. subst s2 s1.
  assert (Hw : PyStr.is_word c = true)
    by (pose proof (known_class_inv _ Hc); now subst c).
  rewrite (onecmd_create obj_str e c con0 Hc).
  rewrite (do_create_ok c c [] e (storage con0)
             (PyStrFacts.split_word c Hw) Hc).
  rewrite (onecmd_destroy obj_str e' c (uuid4 e) _ Hc Hi).
  rewrite (do_destroy_ok _ c (uuid4 e) [] _ (split_two _ _ Hw Hi) Hc).
  simpl. rewrite PyDictFacts.get_set_same. simpl.
  rewrite (PyDictMore.del_set_fresh _ _ _ Hget). repeat split.
Qed.

Lemma create_destroy_round_trip_witness :
  storage
    (run_lines sample_str
       [(mkEnv "c0de-33" 30 31, "create BaseModel");
        (other_env, "destroy BaseModel c0de-33")] sample_console)
  = mkStorage (objects (storage sample_console))
              (Some (objects (storage sample_console))) 4.
Proof.
  exact (proj2 (proj2 (create_destroy_round_trip sample_str "BaseModel"
                         (mkEnv "c0de-33" 30 31) other_env sample_console
                         eq_refl eq_refl eq_refl))).
Defined.

(** ** Invariants of a session *)

Section SessionInvariants.

Variable obj_str : Obj -> string.

(** One line leaves the engine as it was, or ends with the file holding
    the map after one more write. *)
Lemma onecmd_saves e line c :
  let st' := storage (con (onecmd obj_str e line c)) in
  st' = storage c \/
  (file st' = Some (objects st') /\ writes st' = S (writes (storage c))).
Proof.
  destruct (onecmd_cases obj_str e line c) as [[arg Ha]|[[arg Ha]|Ha]];
    cbv zeta in *; rewrite Ha.
  - apply do_create_saves.
  - apply do_destroy_saves.
  - now left.
Qed.

Lemma do_create_consistent arg e st :
  consistent (objects st) ->
  consistent (objects (after (do_create arg e st))).
Proof using.
  intros H. destruct (PyStr.split arg) as [|c rest] eqn:Hs.
  - rewrite do_create_invalid; [exact H|]. now rewrite Hs.
  - destruct (known_class c) eqn:Hc.
    + rewrite (do_create_ok arg c rest e st Hs Hc). simpl.
      apply PyDictMore.Forall_set; [|exact H]. split; [reflexivity|exact Hc].
    + rewrite do_create_invalid; [exact H|].
      now rewrite Hs, validate_classname_cases, Hc.
Qed.

Lemma do_destroy_consistent arg st :
  consistent (objects st) ->
  consistent (objects (after (do_destroy arg st))).
Proof using.
  intros H. unfold do_destroy.
  destruct (validate_classname _ _) as [[] msg]; simpl; [|exact H].
  destruct (PyDict.get _ _); simpl; [|exact H].
  now apply PyDictMore.Forall_del.
Qed.

Lemma onecmd_consistent e line c :
  consistent (objects (storage c)) ->
  consistent (objects (storage (con (onecmd obj_str e line c)))).
Proof.
  intros H.
  destruct (onecmd_cases obj_str e line c) as [[arg Ha]|[[arg Ha]|Ha]];
    cbv zeta in Ha; rewrite Ha.
  - now apply do_create_consistent.
  - now apply do_destroy_consistent.
  - exact H.
Qed.

End SessionInvariants.

(** X10. The file mirrors the map: when the file holds the storage map,
    it still does after any sequence of lines, run one by one or by the
    command loop up to its exit. *)
Theorem file_mirrors_map (obj_str : Obj -> string)
    (lines : list (Env * string)) (c : Console) :
  synced (storage c) ->
  synced (storage (run_lines obj_str lines c)) /\
  synced (storage (fst (cmdloop obj_str lines c))).
Proof.
  assert (Hstep : forall e line c0, synced (storage c0) ->
            synced (storage (con (onecmd obj_str e line c0)))).
  { intros e line c0 H.
    destruct (onecmd_saves obj_str e line c0) as [E|[E _]]; cbv zeta in E;
      [now rewrite E|exact E]. }
  revert c. induction lines as [|[e line] lines IH]; intros c H.
  - split; [exact H|]. unfold cmdloop, fst. now apply Hstep.
  - specialize (IH _ (Hstep e line c H)). destruct IH as [IH1 IH2].
    split; [exact IH1|]. simpl.
    destruct (halt (onecmd obj_str e line c)); simpl; [now apply Hstep|].
    now destruct (cmdloop obj_str lines (con (onecmd obj_str e line c))).
Qed.

Lemma file_mirrors_map_witness :
  synced
    (storage
       (run_lines sample_str
          [(other_env, "destroy BaseModel 4f3c-11"); (other_env, "show");
           (mkEnv "c0de-33" 30 31, "create BaseModel")] sample_console)).
Proof.
  exact (proj1 (file_mirrors_map sample_str
                  [(other_env, "destroy BaseModel 4f3c-11");
                   (other_env, "show");
                   (mkEnv "c0de-33" 30 31, "create BaseModel")]
                  sample_console eq_refl)).
Defined.

(** X11. The file is written at most once per line: over a sequence of
    lines the count of writes never goes down and grows by no more than
    the number of lines. *)
Theorem writes_bounded (obj_str : Obj -> string)
    (lines : list (Env * string)) (c : Console) :
  writes (storage c) <= writes (storage (run_lines obj_str lines c)) /\
  writes (storage (run_lines obj_str lines c))
  <= writes (storage c) + List.length lines.
Proof.
  revert c. induction lines as [|[e line] lines IH]; intros c; simpl.
  - lia.
  - specialize (IH (con (onecmd obj_str e line c))).
    destruct (onecmd_saves obj_str e line c) as [E|[_ E]]; cbv zeta in E;
      rewrite E in IH; lia.
Qed.

(** X12. Entries stay under their own key: when every entry of the storage
    map is filed under the key made of its class name and identifier and
    has a class the console knows, the same holds after any sequence of
    lines. *)
Theorem entries_stay_consistent (obj_str : Obj -> string)
    (lines : list (Env * string)) (c : Console) :
  consistent (objects (storage c)) ->
  consistent (objects (storage (run_lines obj_str lines c))).
Proof.
  revert c. induction lines as [|[e line] lines IH]; simpl; intros c H;
    [exact H|].
  apply IH. now apply onecmd_consistent.
Qed.

Lemma entries_stay_consistent_witness :
  consistent
    (objects
       (storage
          (run_lines sample_str
             [(sample_env, "create BaseModel");
              (other_env, "create BaseModel extra");
              (other_env, "destroy BaseModel 4f3c-11")] empty_console))).
Proof.
  apply (entries_stay_consistent sample_str _ empty_console). constructor.
Defined.

Lemma filter_all {A : Type} (p : A -> bool) (l : list A) :
  Forall (fun x => p x = true) l -> filter p l = l.
Proof.
  induction 1 as [|x l Hx _ IH]; simpl; [reflexivity|].
  now rewrite Hx, IH.
Qed.

(** X13. With entries as in X12, naming a known class does not narrow the
    list: [all <class>] prints what [all] prints. *)
Theorem all_class_is_all (obj_str : Obj -> string) (arg c : string)
    (rest : list string) (st : FileStorage) :
  consistent (objects st) ->
  PyStr.split arg = c :: rest -> known_class c = true ->
  printed (do_all obj_str arg st) = printed (do_all obj_str "" st).
Proof.
  intros H Hs Hc. rewrite !do_all_prints, Hs, Hc. simpl.
  rewrite filter_all; [reflexivity|].
  unfold PyDict.values. apply Forall_map.
  apply (Forall_impl _ (P := entry_ok)); [|exact H].
  intros [k o] [_ Hk]. simpl in *.
  rewrite (known_class_inv _ Hk), (known_class_inv _ Hc).
  reflexivity.
Qed.

Lemma all_class_is_all_witness :
  printed (do_all sample_str "BaseModel" (storage sample_console))
  = printed (do_all sample_str "" (storage sample_console)).
Proof.
  apply (all_class_is_all sample_str "BaseModel" "BaseModel" []
           (storage sample_console)); [|reflexivity|reflexivity].
  repeat constructor.
Defined.

(** X14. What [all] lists, [show] finds: in a map with unique keys and
    entries as in X12, for every stored instance whose identifier is one
    word, [show] with its class name and identifier prints its string
    representation. *)
Theorem show_finds_stored (obj_str : Obj -> string) (e : Env) (k : string)
    (o : Obj) (con0 : Console) :
  PyDict.wf (objects (storage con0)) ->
  consistent (objects (storage con0)) ->
  In (k, o) (objects (storage con0)) -> PyStr.is_word (id o) = true ->
  out (onecmd obj_str e ("show " ++ cls o ++ " " ++ id o) con0)
  = [PStr (obj_str o)].
Proof.
  intros Hwf Hcons Hin Hi.
  assert (Hok : entry_ok (k, o))
    by (unfold consistent in Hcons; rewrite Forall_forall in Hcons; auto).
  destruct Hok as [Hk Hc]. simpl in Hk, Hc.
  assert (Hw : PyStr.is_word (cls o) = true)
    by (rewrite (known_class_inv _ Hc); reflexivity).
  rewrite (onecmd_show obj_str e (cls o) (id o) con0 Hc Hi).
  rewrite (do_show_ok obj_str _ (cls o) (id o) [] _
             (split_two _ _ Hw Hi) Hc).
  simpl. rewrite <- Hk. now rewrite (PyDictMore.In_get k o _ Hwf Hin).
Qed.

Lemma show_finds_stored_witness :
  out (onecmd sample_str sample_env "show BaseModel 9a7e-22" sample_console)
  = [PStr "[BaseModel] (9a7e-22)"].
Proof.
  refine (show_finds_stored sample_str sample_env "BaseModel.9a7e-22"
            (mkObj "BaseModel" "9a7e-22" 20 21) sample_console _ _ _ eq_refl).
  - unfold PyDict.wf. simpl. repeat constructor; simpl.
    + intros [H|[]]. discriminate H.
    + intros [].
  - repeat constructor.
  - right. now left.
Defined.

(** ** White space in the argument text *)
Module PyStrMore.
Import PyStr.

Lemma split_blank_app (b s : string) :
  blank b = true -> split (b ++ s) = split s.
Proof.
  induction b as [|a b IH]; simpl; intros H; [reflexivity|].
  apply andb_true_iff in H as [Ha Hb]. specialize (IH Hb).
  unfold split in *. simpl. destruct (split_scan (b ++ s)) as [w ws].
  now rewrite Ha.
Qed.

Lemma append_empty_r (s : string) : (s ++ "")%string = s.
Proof. induction s as [|a s IH]; simpl; [reflexivity|now rewrite IH]. Qed.

(** A word, then white space, then more text. *)
Lemma split_word_blank_app (w b s : string) :
  is_word w = true -> blank b = true -> b <> EmptyString ->
  split (w ++ b ++ s) = w :: split s.
Proof.
  intros Hw Hb Hne. destruct b as [|sp b]; [congruence|].
  simpl in Hb. apply andb_true_iff in Hb as [Hsp Hb]. simpl append.
  rewrite PyStrFacts.split_word_sep by assumption.
  now rewrite split_blank_app.
Qed.

(** A word, then white space to the end. *)
Lemma split_word_blank_end (w b : string) :
  is_word w = true -> blank b = true -> split (w ++ b) = [w].
Proof.
  intros Hw Hb. destruct b as [|sp b].
  - rewrite append_empty_r. now apply PyStrFacts.split_word.
  - simpl in Hb. apply andb_true_iff in Hb as [Hsp Hb].
    rewrite PyStrFacts.split_word_sep by assumption.
    now rewrite (PyStrFacts.split_blank _ Hb).
Qed.

Lemma split_scan_words (s : string) :
  nospace (fst (split_scan s)) = true /\
  Forall (fun w => is_word w = true) (snd (split_scan s)).
Proof.
  induction s as [|a s [IHw IHws]]; simpl; [now split|].
  destruct (split_scan s) as [w ws]. simpl in *.
  destruct (isspace a) eqn:Ha; simpl.
  - split; [reflexivity|]. destruct w; simpl; [exact IHws|].
    constructor; [exact IHw|exact IHws].
  - now rewrite Ha.
Qed.

End PyStrMore.

(** X15. White space around and between the arguments does not count: for
    words [c] and [i], any white space before, after and (at least one
    character) between them, the handlers do what they do on the plain
    argument text; an argument text of white space only is no argument. *)
Theorem argument_spacing_ignored (obj_str : Obj -> string)
    (b1 b2 b3 c i : string) (e : Env) (st : FileStorage) :
  PyStr.blank b1 = true -> PyStr.blank b2 = true -> b2 <> EmptyString ->
  PyStr.blank b3 = true ->
  PyStr.is_word c = true -> PyStr.is_word i = true ->
  do_show obj_str (b1 ++ c ++ b2 ++ i ++ b3) st
  = do_show obj_str (c ++ " " ++ i) st /\
  do_destroy (b1 ++ c ++ b2 ++ i ++ b3) st = do_destroy (c ++ " " ++ i) st /\
  do_create (b1 ++ c ++ b3) e st = do_create c e st /\
  do_all obj_str (b1 ++ c ++ b3) st = do_all obj_str c st /\
  do_all obj_str b1 st = do_all obj_str "" st /\
  do_show obj_str b1 st = do_show obj_str "" st.
Proof.
  intros H1 H2 Hne H3 Hc Hi.
  assert (S2 : PyStr.split (b1 ++ c ++ b2 ++ i ++ b3) = [c; i]).
  { rewrite PyStrMore.split_blank_app by assumption.
    rewrite PyStrMore.split_word_blank_app by assumption.
    now rewrite PyStrMore.split_word_blank_end. }
  assert (S1 : PyStr.split (b1 ++ c ++ b3) = [c]).
  { rewrite PyStrMore.split_blank_app by assumption.
    now apply PyStrMore.split_word_blank_end. }
  assert (S0 : PyStr.split b1 = PyStr.split "")
    by now rewrite (PyStrFacts.split_blank _ H1).
  repeat split.
  - exact (do_show_first_two obj_str _ _ c i [] [] st S2
             (split_two c i Hc Hi)).
  - exact (do_destroy_first_two _ _ c i [] [] st S2 (split_two c i Hc Hi)).
  - exact (do_create_first _ _ c [] [] e st S1 (PyStrFacts.split_word c Hc)).
  - unfold do_all. now rewrite S1, (PyStrFacts.split_word c Hc).
  - unfold do_all. now rewrite S0.
  - unfold do_show. now rewrite S0.
Qed.

Lemma argument_spacing_ignored_witness :
  do_destroy
    (String (ascii_of_nat 9) "BaseModel   4f3c-11  ")
    (storage sample_console)
  = do_destroy "BaseModel 4f3c-11" (storage sample_console).
Proof.
  exact (proj1 (proj2 (argument_spacing_ignored sample_str
           (String (ascii_of_nat 9) "") "   " "  " "BaseModel" "4f3c-11"
           sample_env (storage sample_console)
           eq_refl eq_refl ltac:(discriminate) eq_refl eq_refl eq_refl))).
Defined.

(** X16. The arguments a handler reads are words: every element of
    [arg.split()] is non-empty and free of white space, so neither a class
    name nor an id with white space in it can be named on a line; and
    words joined by single blanks split back into the same words. *)
Theorem split_yields_words (s : string) (ws : list string) :
  Forall (fun w => PyStr.is_word w = true) (PyStr.split s) /\
  (Forall (fun w => PyStr.is_word w = true) ws ->
   PyStr.split (join_words ws) = ws).
Proof.
  split.
  - unfold PyStr.split. destruct (PyStrMore.split_scan_words s) as [Hw Hws].
    destruct (PyStr.split_scan s) as [w l]. simpl in *.
    destruct w; simpl; [exact Hws|]. constructor; [exact Hw|exact Hws].
  - induction 1 as [|w l Hw Hl IH]; [reflexivity|].
    destruct l as [|w' l]; [now apply PyStrFacts.split_word|].
    change (join_words (w :: w' :: l))
      with (w ++ String " " (join_words (w' :: l)))%string.
    rewrite PyStrFacts.split_word_sep by (assumption || reflexivity).
    now rewrite IH.
Qed.

Lemma split_yields_words_witness :
  PyStr.split (join_words ["BaseModel"; "4f3c-11"; "x"])
  = ["BaseModel"; "4f3c-11"; "x"].
Proof.
  apply (proj2 (split_yields_words "" ["BaseModel"; "4f3c-11"; "x"])).
  repeat constructor.
Defined.
